(** * AMOS: the streaming inference-and-decision engine

    A shallow embedding of the maintenance policy engine
    ([src/models/optimization_model.py]), the history buffer
    ([src/storage/buffer.py]), the feature view
    ([src/preprocessing/features.py]) and the realtime orchestrator
    ([src/pipeline/realtime_loop.py]), with the properties the design
    document states about them.

    Python floats are modelled as rationals [Q]: the thresholds of the
    policy are decimal literals and every operation the policy applies to
    them ([+], [-], [*], [/], comparisons, [min], [max]) is exact on [Q].
    NaN and the infinities are outside the model. *)

From Stdlib Require Import QArith Lqa ZArith Lia List String Bool.
Import ListNotations.

Local Open Scope Q_scope.

(** ** Python primitives on floats *)

Module Py.

(** [x > y], [x < y], [x >= y] on floats. *)
Definition gt (x y : Q) : bool := negb (Qle_bool x y).
Definition lt (x y : Q) : bool := negb (Qle_bool y x).
Definition ge (x y : Q) : bool := Qle_bool y x.

(** The builtins [min(a, b)] and [max(a, b)]: the first argument is kept
    unless the second one is strictly smaller (resp. larger). *)
Definition min (a b : Q) : Q := if lt b a then b else a.
Definition max (a b : Q) : Q := if gt b a then b else a.

End Py.

(** ** The runtime the engine calls into

    [datetime] and [timedelta] of the standard library, and the
    formatting of a float under a format specification ([".2f"],
    [".0f"], [".2%"]).  The engine only combines these operations; what it
    computes does not depend on how they are implemented. *)

Class Runtime := {
  datetime : Type;
  timedelta : Type;
  (** [timedelta(hours=h)] and [timedelta(minutes=m)] *)
  timedelta_hours : Q -> timedelta;
  timedelta_minutes : Q -> timedelta;
  (** [t + d] *)
  datetime_add : datetime -> timedelta -> datetime;
  (** [t.isoformat()] *)
  isoformat : datetime -> string;
  (** [format(x, spec)], the [{x:spec}] of an f-string *)
  format_float : string -> Q -> string;
}.

(** ** src/config.py *)

Module config.

Definition FAILURE_PROBA_THRESHOLD : Q := 0.35.
Definition ANOMALY_SCORE_THRESHOLD : Q := 0.6.

Definition MAINTENANCE_COST : Q := 500.
Definition FAILURE_COST : Q := 5000.
Definition DOWNTIME_COST_PER_HOUR : Q := 1000.
Definition RUL_SAFETY_MARGIN : Q := 20.

Definition BUFFER_MAXLEN : nat := 500.

End config.

(** ** src/models/optimization_model.py *)

Module optimization_model.

Import config.
Local Open Scope string_scope.

Inductive MaintenanceAction :=
| CRITICAL_IMMEDIATE
| SCHEDULE_URGENT
| SCHEDULE_SOON
| MONITOR
| INVESTIGATE
| NORMAL.

(** [MaintenanceAction.value] *)
Definition value (a : MaintenanceAction) : string :=
  match a with
  | CRITICAL_IMMEDIATE => "critical_immediate"
  | SCHEDULE_URGENT => "schedule_urgent"
  | SCHEDULE_SOON => "schedule_soon"
  | MONITOR => "monitor"
  | INVESTIGATE => "investigate"
  | NORMAL => "normal"
  end.

(** The action decides the cost; the enumeration is closed, so the
    trailing [return 0.0] of the source is never reached. *)
Definition compute_expected_cost
    (failure_proba rul_estimate : Q) (action : MaintenanceAction) : Q :=
  match action with
  | CRITICAL_IMMEDIATE =>
      let downtime_hours := 2.0 in
      MAINTENANCE_COST + (downtime_hours * DOWNTIME_COST_PER_HOUR)
  | SCHEDULE_URGENT =>
      let downtime_hours := 1.5 in
      MAINTENANCE_COST + (downtime_hours * DOWNTIME_COST_PER_HOUR)
  | SCHEDULE_SOON =>
      let downtime_hours := 1.0 in
      MAINTENANCE_COST + (downtime_hours * DOWNTIME_COST_PER_HOUR)
  | MONITOR | NORMAL => failure_proba * FAILURE_COST
  | INVESTIGATE => 100.0
  end.

Section Engine.

Context `{RT : Runtime}.

Record MaintenanceDecision := {
  action : MaintenanceAction;
  confidence : Q;
  failure_mode : string;
  failure_probability : Q;
  rul_estimate : Q;
  anomaly_score : Q;
  expected_cost : Q;
  scheduled_time : option datetime;
  reasoning : string;
}.

(** The branch taken by the decision tree: what each rule assigns to
    [action], [confidence], [reasoning] and [scheduled_time]. *)
Definition decision_tree
    (failure_probability : Q) (failure_mode : string)
    (rul_estimate anomaly_score : Q) (anomaly_flag : bool)
    (current_time : datetime)
  : MaintenanceAction * Q * string * option datetime :=
  let P := format_float ".2%" failure_probability in
  let RUL := format_float ".0f" rul_estimate in
  (* Rule 1: Anomaly detected (high priority for investigation) *)
  if anomaly_flag && (failure_mode =? "NORMAL") then
    (INVESTIGATE,
     Py.min anomaly_score 0.95,
     "Anomaly detected (score=" ++ format_float ".2f" anomaly_score
       ++ ") without failure prediction. "
       ++ "Investigate sensor data and machine behavior.",
     Some (datetime_add current_time (timedelta_hours 2)))
  (* Rule 2: Critical - immediate action required *)
  else if Py.gt failure_probability 0.7 || Py.lt rul_estimate 30 then
    (CRITICAL_IMMEDIATE,
     Py.max failure_probability (1.0 - (rul_estimate / 30.0)),
     "CRITICAL: High failure risk (P=" ++ P ++ ") "
       ++ "or very low RUL (" ++ RUL ++ " min). "
       ++ "Predicted failure mode: " ++ failure_mode
       ++ ". Stop machine and perform maintenance NOW.",
     Some current_time)
  (* Rule 3: Urgent - schedule within current shift *)
  else if Py.gt failure_probability 0.5 && Py.lt rul_estimate 60 then
    let schedule_delay_minutes :=
      Py.max (Py.min (rul_estimate - RUL_SAFETY_MARGIN) 240) 30 in
    (SCHEDULE_URGENT,
     failure_probability * 0.9,
     "URGENT: Elevated failure risk (P=" ++ P ++ ") "
       ++ "with low RUL (" ++ RUL ++ " min). "
       ++ "Predicted failure mode: " ++ failure_mode
       ++ ". Schedule maintenance within this shift.",
     Some (datetime_add current_time
             (timedelta_minutes schedule_delay_minutes)))
  (* Rule 4: Schedule soon - plan within 1-2 days *)
  else if Py.gt failure_probability FAILURE_PROBA_THRESHOLD
          && Py.lt rul_estimate 120 then
    let schedule_delay_minutes :=
      Py.max (rul_estimate - RUL_SAFETY_MARGIN) 60 in
    (SCHEDULE_SOON,
     failure_probability * 0.8,
     "WARNING: Moderate failure risk (P=" ++ P ++ ") "
       ++ "with RUL=" ++ RUL ++ " min. "
       ++ "Predicted failure mode: " ++ failure_mode
       ++ ". Plan maintenance within 1-2 days.",
     Some (datetime_add current_time
             (timedelta_minutes schedule_delay_minutes)))
  (* Rule 5: High failure probability but good RUL *)
  else if Py.gt failure_probability FAILURE_PROBA_THRESHOLD then
    (MONITOR,
     0.7,
     "MONITOR: Moderate failure risk (P=" ++ P ++ ") "
       ++ "but adequate RUL (" ++ RUL ++ " min). "
       ++ "Continue monitoring. Potential failure mode: "
       ++ failure_mode ++ ".",
     None)
  (* Rule 6: Low RUL but low failure probability *)
  else if Py.lt rul_estimate 60 then
    let schedule_delay_minutes :=
      Py.max (rul_estimate - RUL_SAFETY_MARGIN) 30 in
    (SCHEDULE_SOON,
     0.6,
     "Low RUL (" ++ RUL ++ " min) approaching end of life. "
       ++ "Schedule preventive maintenance even though failure "
       ++ "probability is low (P=" ++ P ++ ").",
     Some (datetime_add current_time
             (timedelta_minutes schedule_delay_minutes)))
  (* Rule 7: Normal operation *)
  else
    (NORMAL,
     1.0 - failure_probability,
     "Normal operation. Low failure risk (P=" ++ P ++ "), "
       ++ "RUL=" ++ RUL ++ " min. Continue normal monitoring.",
     None).

(** [now] is the reading of the wall clock, [datetime.now()], used
    only when no [current_time] is supplied. *)
Definition optimize_maintenance_decision
    (now : datetime)
    (failure_probability : Q) (failure_mode : string)
    (rul_estimate anomaly_score : Q) (anomaly_flag : bool)
    (current_time : option datetime) : MaintenanceDecision :=
  let current_time :=
    match current_time with
    | None => now
    | Some t => t
    end in
  let '(action, confidence, reasoning, scheduled_time) :=
    decision_tree failure_probability failure_mode rul_estimate
      anomaly_score anomaly_flag current_time in
  let expected_cost :=
    compute_expected_cost failure_probability rul_estimate action in
  {| action := action;
     confidence := Py.min confidence 1.0;
     failure_mode := failure_mode;
     failure_probability := failure_probability;
     rul_estimate := rul_estimate;
     anomaly_score := anomaly_score;
     expected_cost := expected_cost;
     scheduled_time := scheduled_time;
     reasoning := reasoning |}.

(** [priority_map.get(decision.action, 6)] *)
Definition get_maintenance_priority (decision : MaintenanceDecision) : Z :=
  match action decision with
  | CRITICAL_IMMEDIATE => 1
  | SCHEDULE_URGENT => 2
  | INVESTIGATE => 3
  | SCHEDULE_SOON => 4
  | MONITOR => 5
  | NORMAL => 6
  end%Z.

End Engine.

Arguments MaintenanceDecision {RT}.

End optimization_model.

(** ** src/storage/buffer.py *)

Module buffer.

Section Buffer.

Context {A : Type}.

(** [collections.deque(maxlen=n).append(x)]: the item is added on the
    right and, when the deque then holds more than [maxlen] items, one
    item is removed on the left. *)
Definition deque_append (maxlen : nat) (d : list A) (x : A) : list A :=
  let d' := d ++ [x] in
  if (maxlen <? List.length d')%nat then tl d' else d'.

(** The buffer owns one bounded deque.  A negative [maxlen] is refused
    by [deque] itself, so the capacity is a natural number. *)
Record InMemoryBuffer := {
  maxlen : nat;
  _data : list A;
}.

(** [InMemoryBuffer(maxlen)] *)
Definition init (maxlen : nat) : InMemoryBuffer :=
  {| maxlen := maxlen; _data := [] |}.

Definition append (self : InMemoryBuffer) (item : A) : InMemoryBuffer :=
  {| maxlen := maxlen self;
     _data := deque_append (maxlen self) (_data self) item |}.

(** [list(self._data)[-n:]] keeps the last [n] items, all of them
    when there are fewer. *)
Definition latest (self : InMemoryBuffer) (n : Z) : list A :=
  if (n <=? 0)%Z then []
  else skipn (List.length (_data self) - Z.to_nat n) (_data self).

Definition all (self : InMemoryBuffer) : list A := _data self.

Definition len (self : InMemoryBuffer) : nat := List.length (_data self).

(** A run of [append] calls, in the order of the list. *)
Definition append_all (self : InMemoryBuffer) (items : list A)
  : InMemoryBuffer :=
  fold_left append items self.

End Buffer.

Arguments InMemoryBuffer A : clear implicits.

End buffer.

(** ** src/preprocessing/features.py *)

Module features.

Local Open Scope string_scope.

Definition FAILURE_COLS : list string :=
  ["Machine failure"; "TWF"; "HDF"; "PWF"; "OSF"; "RNF"].
Definition CAT_COLS : list string := ["Type"].

(** A cell of a row: a number or a text (the product type, the failure
    mode). *)
Inductive cell :=
| Num (x : Q)
| Str (s : string).

(** A [pd.Series] indexed by field name, and a [pd.DataFrame] of one
    row: the labels in order, each with its cell. *)
Definition Series := list (string * cell).
Definition DataFrame := list (string * cell).

Definition columns (df : DataFrame) : list string := map fst df.

(** [c in labels] *)
Definition contains (labels : list string) (c : string) : bool :=
  existsb (String.eqb c) labels.

(** [row.to_frame().T] *)
Definition to_frame_T (row : Series) : DataFrame := row.

(** [df[c] = v]: overwrites the column when it exists, adds it as the
    last column otherwise. *)
Definition setitem (df : DataFrame) (c : string) (v : cell) : DataFrame :=
  if contains (columns df) c
  then map (fun kv => if String.eqb (fst kv) c then (c, v) else kv) df
  else (df ++ [(c, v)])%list.

(** [df.drop(columns=labels, errors="ignore")] *)
Definition drop (df : DataFrame) (labels : list string) : DataFrame :=
  filter (fun kv => negb (contains labels (fst kv))) df.

(** [df[c]] of a one-row frame, [None] when there is no such column. *)
Fixpoint lookup (df : DataFrame) (c : string) : option cell :=
  match df with
  | [] => None
  | (k, v) :: rest => if String.eqb k c then Some v else lookup rest c
  end.

Definition build_single_row_feature_df (row : Series) : DataFrame :=
  let df := to_frame_T row in
  (* Ensure failure columns are present for drop, even if NaN *)
  let df :=
    fold_left
      (fun df c => if negb (contains (columns df) c)
                   then setitem df c (Num 0) else df)
      FAILURE_COLS df in
  let X := drop df FAILURE_COLS in
  X.

(** A [pd.DataFrame] of any number of rows, column by column: the labels
    in order, each with the cells of its column. *)
Definition Frame := list (string * list cell).

(** [df.columns] *)
Definition frame_columns (df : Frame) : list string := map fst df.

(** [df.drop(columns=labels, errors="ignore")] *)
Definition frame_drop (df : Frame) (labels : list string) : Frame :=
  filter (fun kv => negb (contains labels (fst kv))) df.

Definition get_feature_columns (df : Frame)
  : Frame * list string * list string :=
  let X := frame_drop df FAILURE_COLS in
  let cat_cols := filter (fun c => contains CAT_COLS c) (frame_columns X) in
  let num_cols :=
    filter (fun c => negb (contains cat_cols c)) (frame_columns X) in
  (X, num_cols, cat_cols).

End features.

(** ** Exceptions and the orchestrator's monad *)

(** A raised exception: its class and its message. *)
Record PyException := {
  exc_class : string;
  exc_message : string;
}.

(** The outcome of a call: an exception raised, or a value returned. *)
Definition result (A : Type) : Type := (PyException + A)%type.

(** A method of an object whose state is [S]: it may change the state and
    may raise; what was changed before the exception stays changed. *)
Definition M (S A : Type) : Type := S -> result A * S.

Definition ret {S A} (a : A) : M S A := fun s => (inr a, s).

Definition raise {S A} (e : PyException) : M S A := fun s => (inl e, s).

Definition bind {S A B} (c : M S A) (k : A -> M S B) : M S B :=
  fun s =>
    match c s with
    | (inl e, s') => (inl e, s')
    | (inr a, s') => k a s'
    end.

(** A call that does not touch the state. *)
Definition call {S A} (r : result A) : M S A := fun s => (r, s).

Definition modify {S} (f : S -> S) : M S unit := fun s => (inr tt, f s).

Notation "x <- c ;; k" := (bind c (fun x => k))
  (at level 61, c at next level, right associativity).
Notation "c ;;; k" := (bind c (fun _ => k))
  (at level 61, right associativity).

(** ** numpy arrays, as far as the orchestrator reads them *)

Module np.

Local Open Scope string_scope.

Definition IndexError : PyException :=
  {| exc_class := "IndexError";
     exc_message := "index 0 is out of bounds for axis 0 with size 0" |}.

Definition ValueError_empty_max : PyException :=
  {| exc_class := "ValueError";
     exc_message :=
       "zero-size array to reduction operation maximum which has no identity" |}.

(** [a[0]] *)
Definition item0 {A} (a : list A) : result A :=
  match a with
  | [] => inl IndexError
  | x :: _ => inr x
  end.

(** [a.max()] *)
Definition max (a : list Q) : result Q :=
  match a with
  | [] => inl ValueError_empty_max
  | x :: rest => inr (fold_left Py.max rest x)
  end.

End np.

(** ** The predictive model adapters

    [compute_anomaly_score], [failure_probability], [predict_failure_mode],
    [predict_failure_mode_proba], [predict_rul] and [predict_energy] hand
    the feature frame to a fitted scikit-learn pipeline and return its
    answer, one entry per row of the frame; whatever the pipeline raises
    propagates. *)

Class Adapters := {
  Pipeline : Type;
  compute_anomaly_score : Pipeline -> features.DataFrame -> result (list Q);
  failure_probability : Pipeline -> features.DataFrame -> result (list Q);
  predict_failure_mode : Pipeline -> features.DataFrame -> result (list string);
  predict_failure_mode_proba :
    Pipeline -> features.DataFrame -> result (list (list Q));
  predict_rul : Pipeline -> features.DataFrame -> result (list Q);
  predict_energy : Pipeline -> features.DataFrame -> result (list Q);
}.

(** ** src/pipeline/realtime_loop.py *)

Module realtime_loop.

Import config features.

Section Orchestrator.

Context `{RT : Runtime} `{AD : Adapters}.

Record RealtimeOutput := {
  row_index : Z;
  raw_row : Series;
  anomaly_score : Q;
  anomaly_flag : bool;
  failure_proba : Q;
  failure_flag : bool;
  failure_mode : string;
  failure_mode_confidence : Q;
  rul_estimate : Q;
  energy_estimate : Q;
  maintenance_action : string;
  maintenance_priority : Z;
  maintenance_reasoning : string;
  expected_cost : Q;
  scheduled_time : option string;
}.

(** The state of the orchestrator: the five loaded models and the
    buffer.  The buffer holds [out.__dict__], the fields of the
    output by name, which is the output record itself here. *)
Record RealtimePipeline := {
  anomaly_model : Pipeline;
  fault_binary_model : Pipeline;
  fault_multiclass_model : Pipeline;
  rul_model : Pipeline;
  energy_model : Pipeline;
  buffer : buffer.InMemoryBuffer RealtimeOutput;
}.

(** [RealtimePipeline()], given the five models that the loaders
    return. *)
Definition init (anomaly fault_binary fault_multiclass rul energy : Pipeline)
  : RealtimePipeline :=
  {| anomaly_model := anomaly;
     fault_binary_model := fault_binary;
     fault_multiclass_model := fault_multiclass;
     rul_model := rul;
     energy_model := energy;
     buffer := buffer.init BUFFER_MAXLEN |}.

(** [self.buffer.append(item)] *)
Definition buffer_append (item : RealtimeOutput)
  : M RealtimePipeline unit :=
  modify (fun self =>
    {| anomaly_model := anomaly_model self;
       fault_binary_model := fault_binary_model self;
       fault_multiclass_model := fault_multiclass_model self;
       rul_model := rul_model self;
       energy_model := energy_model self;
       buffer := buffer.append (buffer self) item |}).

(** [now] is what [datetime.now()] reads when the decision is taken. *)
Definition process_row (now : datetime) (row : Series) (idx : Z)
  : M RealtimePipeline RealtimeOutput :=
  fun self =>
  (let X := build_single_row_feature_df row in
   (* 1. Anomaly detection *)
   a_scores <- call (compute_anomaly_score (anomaly_model self) X) ;;
   anomaly_score <- call (np.item0 a_scores) ;;
   let anomaly_flag := Py.ge anomaly_score ANOMALY_SCORE_THRESHOLD in
   (* 2. Binary fault prediction *)
   f_proba <- call (failure_probability (fault_binary_model self) X) ;;
   failure_proba <- call (np.item0 f_proba) ;;
   let failure_flag := Py.ge failure_proba FAILURE_PROBA_THRESHOLD in
   (* 3. Multiclass fault prediction (failure type) *)
   failure_mode_pred <-
     call (predict_failure_mode (fault_multiclass_model self) X) ;;
   failure_mode <- call (np.item0 failure_mode_pred) ;;
   failure_mode_proba <-
     call (predict_failure_mode_proba (fault_multiclass_model self) X) ;;
   proba0 <- call (np.item0 failure_mode_proba) ;;
   failure_mode_confidence <- call (np.max proba0) ;;
   (* 4. RUL estimation *)
   rul_pred <- call (predict_rul (rul_model self) X) ;;
   rul_estimate <- call (np.item0 rul_pred) ;;
   (* 5. Energy forecasting *)
   energy_pred <- call (predict_energy (energy_model self) X) ;;
   energy_estimate <- call (np.item0 energy_pred) ;;
   (* 6. Maintenance optimization decision *)
   let decision :=
     optimization_model.optimize_maintenance_decision now
       failure_proba failure_mode rul_estimate anomaly_score anomaly_flag
       (Some now) in
   let scheduled_time_str :=
     match optimization_model.scheduled_time decision with
     | Some t => Some (isoformat t)
     | None => None
     end in
   let out :=
     {| row_index := idx;
        raw_row := row;
        anomaly_score := anomaly_score;
        anomaly_flag := anomaly_flag;
        failure_proba := failure_proba;
        failure_flag := failure_flag;
        failure_mode := failure_mode;
        failure_mode_confidence := failure_mode_confidence;
        rul_estimate := rul_estimate;
        energy_estimate := energy_estimate;
        maintenance_action :=
          optimization_model.value (optimization_model.action decision);
        maintenance_priority :=
          optimization_model.get_maintenance_priority decision;
        maintenance_reasoning := optimization_model.reasoning decision;
        expected_cost := optimization_model.expected_cost decision;
        scheduled_time := scheduled_time_str |} in
   buffer_append out ;;;
   ret out) self.

(** [e] is what one of the six adapter calls raises on the frame [X]. *)
Definition adapter_raises (self : RealtimePipeline) (X : DataFrame)
    (e : PyException) : Prop :=
  compute_anomaly_score (anomaly_model self) X = inl e
  \/ failure_probability (fault_binary_model self) X = inl e
  \/ predict_failure_mode (fault_multiclass_model self) X = inl e
  \/ predict_failure_mode_proba (fault_multiclass_model self) X = inl e
  \/ predict_rul (rul_model self) X = inl e
  \/ predict_energy (energy_model self) X = inl e.

(** [e] is raised by reading an adapter's answer: entry 0 of an empty
    array, or the maximum of an empty row. *)
Definition read_raises (e : PyException) : Prop :=
  e = np.IndexError \/ e = np.ValueError_empty_max.

End Orchestrator.

Arguments RealtimePipeline {AD}.

End realtime_loop.

(** ** A runtime and adapters to run the engine on concrete inputs *)

Module Sample.

Local Open Scope string_scope.

(** Time counted in minutes from an arbitrary origin; a float is
    rendered as its format specification in braces. *)
Definition minutes_runtime : Runtime :=
  {| datetime := Q;
     timedelta := Q;
     timedelta_hours := fun h => h * 60;
     timedelta_minutes := fun m => m;
     datetime_add := fun t d => t + d;
     isoformat := fun _ => "<datetime>";
     format_float := fun spec _ => "{:" ++ spec ++ "}" |}.

(** The policy engine on that runtime. *)
Definition decide_at :=
  optimization_model.optimize_maintenance_decision (RT := minutes_runtime).

(** A fitted model that gives the same answer for every frame. *)
Record Canned := {
  scores : result (list Q);
  labels : result (list string);
  probas : result (list (list Q));
}.

Definition canned_adapters : Adapters :=
  {| Pipeline := Canned;
     compute_anomaly_score := fun m _ => scores m;
     failure_probability := fun m _ => scores m;
     predict_failure_mode := fun m _ => labels m;
     predict_failure_mode_proba := fun m _ => probas m;
     predict_rul := fun m _ => scores m;
     predict_energy := fun m _ => scores m |}.

Definition NotFitted : PyException :=
  {| exc_class := "NotFittedError";
     exc_message := "This Pipeline instance is not fitted yet." |}.

(** A regressor or scorer that answers [x], a classifier that answers
    [mode] with probabilities [ps], and a model that raises. *)
Definition answers (x : Q) : Canned :=
  {| scores := inr [x]; labels := inl NotFitted; probas := inl NotFitted |}.
Definition classifies (mode : string) (ps : list Q) : Canned :=
  {| scores := inl NotFitted; labels := inr [mode]; probas := inr [ps] |}.
Definition unfitted : Canned :=
  {| scores := inl NotFitted; labels := inl NotFitted;
     probas := inl NotFitted |}.

(** A healthy line: anomaly score 0.8, failure probability 0.2, mode
    NORMAL, 150 minutes of remaining life. *)
Definition healthy_line : realtime_loop.RealtimePipeline (AD := canned_adapters) :=
  realtime_loop.init (AD := canned_adapters)
    (answers 0.8) (answers 0.2) (classifies "NORMAL" [0.9; 0.1])
    (answers 150) (answers 3.5).

(** The same line with a remaining-life model that raises. *)
Definition broken_line : realtime_loop.RealtimePipeline (AD := canned_adapters) :=
  realtime_loop.init (AD := canned_adapters)
    (answers 0.8) (answers 0.2) (classifies "NORMAL" [0.9; 0.1])
    unfitted (answers 3.5).

(** The orchestrator on that runtime and these adapters. *)
Definition run_row :=
  realtime_loop.process_row (RT := minutes_runtime) (AD := canned_adapters).

Definition observation : features.Series :=
  [("Type", features.Str "L");
   ("Air temperature [K]", features.Num 298.1);
   ("Process temperature [K]", features.Num 308.6);
   ("Rotational speed [rpm]", features.Num 1551);
   ("Torque [Nm]", features.Num 42.8);
   ("Tool wear [min]", features.Num 0);
   ("Machine failure", features.Num 0);
   ("TWF", features.Num 0)].

(** The same observation without its torque reading. *)
Definition observation_without_torque : features.Series :=
  [("Type", features.Str "L");
   ("Air temperature [K]", features.Num 298.1);
   ("Process temperature [K]", features.Num 308.6);
   ("Rotational speed [rpm]", features.Num 1551);
   ("Tool wear [min]", features.Num 0);
   ("Machine failure", features.Num 0);
   ("TWF", features.Num 0)].

End Sample.

(** ** The policy as the design document words it *)

Module Policy.

Import config optimization_model.
Local Open Scope string_scope.

(** The rules, named after the evaluation order (a) to (g). *)
Inductive rule :=
| anomaly_without_fault
| critical
| urgent
| schedule_soon_probability
| monitor
| low_rul_fallback
| normal.

Definition evaluation_order : list rule :=
  [anomaly_without_fault; critical; urgent; schedule_soon_probability;
   monitor; low_rul_fallback; normal].

(** The trigger of each rule. *)
Definition holds (failure_probability : Q) (failure_mode : string)
    (rul_estimate : Q) (anomaly_flag : bool) (r : rule) : Prop :=
  match r with
  | anomaly_without_fault => anomaly_flag = true /\ failure_mode = "NORMAL"
  | critical => 0.7 < failure_probability \/ rul_estimate < 30
  | urgent => 0.5 < failure_probability /\ rul_estimate < 60
  | schedule_soon_probability =>
      FAILURE_PROBA_THRESHOLD < failure_probability /\ rul_estimate < 120
  | monitor => FAILURE_PROBA_THRESHOLD < failure_probability
  | low_rul_fallback => rul_estimate < 60
  | normal => True
  end.

(** The action each rule yields. *)
Definition outcome (r : rule) : MaintenanceAction :=
  match r with
  | anomaly_without_fault => INVESTIGATE
  | critical => CRITICAL_IMMEDIATE
  | urgent => SCHEDULE_URGENT
  | schedule_soon_probability => SCHEDULE_SOON
  | monitor => MONITOR
  | low_rul_fallback => SCHEDULE_SOON
  | normal => NORMAL
  end.

(** [r] is the first rule of [order] whose trigger holds. *)
Definition first_match (trigger : rule -> Prop) (order : list rule)
    (r : rule) : Prop :=
  exists earlier later,
    order = (earlier ++ r :: later)%list
    /\ Forall (fun r' => ~ trigger r') earlier
    /\ trigger r.

(** [clamp(x, lo, hi)], and the one-sided [clamp(x, lo, infinity)]. *)
Definition clamp (x lo hi : Q) : Q :=
  if Qlt_le_dec x lo then lo
  else if Qlt_le_dec hi x then hi
  else x.

Definition at_least (x lo : Q) : Q :=
  if Qlt_le_dec x lo then lo else x.

Section Branches.

Context `{RT : Runtime}.

(** The time schedules are counted from: the supplied [current_time],
    the clock when none is supplied. *)
Definition reference_time (now : datetime) (ct : option datetime)
  : datetime :=
  match ct with
  | Some t => t
  | None => now
  end.

(** What the decision tree assigns, rule by rule: the action, the
    confidence before the final [min(confidence, 1.0)], and the
    scheduled time. *)
Inductive branch (p : Q) (mode : string) (rul score : Q) (flag : bool)
    (t : datetime) : rule -> Q -> option datetime -> Prop :=
| br_investigate :
    branch p mode rul score flag t anomaly_without_fault
      (Py.min score 0.95)
      (Some (datetime_add t (timedelta_hours 2)))
| br_critical :
    branch p mode rul score flag t critical
      (Py.max p (1.0 - (rul / 30.0)))
      (Some t)
| br_urgent :
    branch p mode rul score flag t urgent
      (p * 0.9)
      (Some (datetime_add t (timedelta_minutes
         (Py.max (Py.min (rul - RUL_SAFETY_MARGIN) 240) 30))))
| br_soon :
    branch p mode rul score flag t schedule_soon_probability
      (p * 0.8)
      (Some (datetime_add t (timedelta_minutes
         (Py.max (rul - RUL_SAFETY_MARGIN) 60))))
| br_monitor :
    branch p mode rul score flag t monitor 0.7 None
| br_fallback :
    branch p mode rul score flag t low_rul_fallback 0.6
      (Some (datetime_add t (timedelta_minutes
         (Py.max (rul - RUL_SAFETY_MARGIN) 30))))
| br_normal :
    branch p mode rul score flag t normal (1.0 - p) None.

(** The scheduled time each rule asks for, counted from [t]: now for
    critical, a clamped delay for urgent and soon, two hours for
    investigate, none for monitor and normal. *)
Definition schedule (rul : Q) (t : datetime) (r : rule)
  : option datetime :=
  match r with
  | anomaly_without_fault => Some (datetime_add t (timedelta_hours 2))
  | critical => Some t
  | urgent =>
      Some (datetime_add t (timedelta_minutes
              (clamp (rul - RUL_SAFETY_MARGIN) 30 240)))
  | schedule_soon_probability =>
      Some (datetime_add t (timedelta_minutes
              (at_least (rul - RUL_SAFETY_MARGIN) 60)))
  | low_rul_fallback =>
      Some (datetime_add t (timedelta_minutes
              (at_least (rul - RUL_SAFETY_MARGIN) 30)))
  | monitor | normal => None
  end.

End Branches.

End Policy.

(** ** src/preprocessing/etl.py *)

Module etl.

Import features.
Local Open Scope string_scope.

Definition FAILURE_SUBCOLS : list string := ["TWF"; "HDF"; "PWF"; "OSF"; "RNF"].

Definition KeyError (key : string) : PyException :=
  {| exc_class := "KeyError"; exc_message := key |}.

(** [row[key]] *)
Definition getitem (row : Series) (key : string) : result cell :=
  match lookup row key with
  | Some v => inr v
  | None => inl (KeyError key)
  end.

(** [v == n] for a number [n]: a text is equal to no number. *)
Definition eq_number (v : cell) (n : Q) : bool :=
  match v with
  | Num x => Qeq_bool x n
  | Str _ => false
  end.

(** [[c for c in cols if row[c] == 1]]: the columns are read in order,
    and the first one that is missing raises. *)
Fixpoint active_flags (row : Series) (cols : list string)
  : result (list string) :=
  match cols with
  | [] => inr []
  | c :: rest =>
      match getitem row c with
      | inl e => inl e
      | inr v =>
          match active_flags row rest with
          | inl e => inl e
          | inr active => inr (if eq_number v 1 then c :: active else active)
          end
      end
  end.

Definition infer_failure_mode (row : Series) : result string :=
  match getitem row "Machine failure" with
  | inl e => inl e
  | inr machine_failure =>
      if eq_number machine_failure 0 then inr "NORMAL"
      else
        match active_flags row FAILURE_SUBCOLS with
        | inl e => inl e
        | inr active =>
            match active with
            | [only] => inr only
            | first :: _ :: _ => inr first
            | [] => inr "NORMAL"
            end
        end
  end.

End etl.

(** ** The files the engine reads

    The project directory, the test whether a path exists and
    [pd.read_csv], which returns the rows of the file in order or
    raises. *)

Class Files := {
  BASE_DIR : string;
  path_exists : string -> bool;
  read_csv : string -> result (list features.Series);
}.

(** ** src/ingestion/stream_simulator.py *)

Module stream_simulator.

Import features.
Local Open Scope string_scope.

Definition STREAM_SLEEP_SECONDS : Q := 0.5.

Section WithFiles.

Context `{FS : Files}.

(** The paths of [src/config.py] that the simulator looks at. *)
Definition PROCESSED_DATA_PATH : string :=
  BASE_DIR ++ "/data/processed/ai4i2020_prepared.csv".
Definition REALISTIC_STREAM_PATH : string :=
  BASE_DIR ++ "/data/processed/ai4i2020_stream_realistic.csv".
Definition SYNTHETIC_STREAM_PATH : string :=
  BASE_DIR ++ "/data/examples/synthetic_stream.csv".

Record StreamSimulator := {
  path : string;
  sleep_seconds : Q;
  loop_forever : bool;
  df : list Series;
}.

(** [StreamSimulator(path, sleep_seconds, loop_forever)]; an empty
    [path] counts as none given. *)
Definition init (path : option string) (sleep_seconds : Q)
    (loop_forever : bool) : result StreamSimulator :=
  let chosen :=
    match path with
    | Some (String a rest) => String a rest
    | _ =>
        if path_exists REALISTIC_STREAM_PATH then REALISTIC_STREAM_PATH
        else if path_exists SYNTHETIC_STREAM_PATH then SYNTHETIC_STREAM_PATH
        else PROCESSED_DATA_PATH
    end in
  match read_csv chosen with
  | inl e => inl e
  | inr rows =>
      inr {| path := chosen;
             sleep_seconds := sleep_seconds;
             loop_forever := loop_forever;
             df := rows |}
  end.

(** What asking the iterator of [__iter__] for its next row gives, when
    [pos] rows of the current pass were yielded: a row and the new
    position; the end of the iteration; or no answer at all, when the
    data is empty and the simulator loops forever.  The pause between two
    rows is left out. *)
Inductive Next :=
| Item (row : Series) (pos : nat)
| Exhausted
| Spins.

Definition next (self : StreamSimulator) (pos : nat) : Next :=
  match nth_error (df self) pos with
  | Some row => Item row (S pos)
  | None =>
      if loop_forever self then
        match df self with
        | row :: _ => Item row 1
        | [] => Spins
        end
      else Exhausted
  end.

(** The first [k] rows the iterator yields from position [pos] on. *)
Fixpoint take (self : StreamSimulator) (k : nat) (pos : nat) : list Series :=
  match k with
  | O => []
  | S k' =>
      match next self pos with
      | Item row pos' => row :: take self k' pos'
      | Exhausted | Spins => []
      end
  end.

End WithFiles.

End stream_simulator.

(** ** src/pipeline/realtime_loop.py: the continuous mode *)

Module realtime_run.

Import features realtime_loop stream_simulator.

Section Run.

Context `{RT : Runtime} `{AD : Adapters} `{FS : Files}.

(** The process running the loop: the orchestrator and the console,
    which holds the records printed so far, one line each. *)
Record Process := {
  pipeline : RealtimePipeline;
  console : list RealtimeOutput;
}.

(** [self.process_row(row, idx)] *)
Definition self_process_row (now : datetime) (row : Series) (idx : Z)
  : M Process RealtimeOutput :=
  fun s =>
    let (r, pipeline') := process_row now row idx (pipeline s) in
    (r, {| pipeline := pipeline'; console := console s |}).

(** [print(...)] of the line of a record *)
Definition print (out : RealtimeOutput) : M Process unit :=
  modify (fun s =>
    {| pipeline := pipeline s; console := console s ++ [out] |}).

(** Where the loop stands after a number of iterations. *)
Inductive Progress :=
| Running
| Returned
| Waiting.

(** [for idx, row in enumerate(stream): ...], cut after [fuel]
    iterations.  [clock idx] is what [datetime.now()] reads when the row
    of index [idx] is decided. *)
Fixpoint loop (clock : Z -> datetime) (stream : StreamSimulator)
    (fuel : nat) (pos : nat) (idx : Z) : M Process Progress :=
  match fuel with
  | O => ret Running
  | S fuel' =>
      match next stream pos with
      | Item row pos' =>
          out <- self_process_row (clock idx) row idx ;;
          print out ;;;
          loop clock stream fuel' pos' (idx + 1)
      | Exhausted => ret Returned
      | Spins => ret Waiting
      end
  end.

Definition run_forever (clock : Z -> datetime) (fuel : nat)
  : M Process Progress :=
  stream <- call (init None STREAM_SLEEP_SECONDS true) ;;
  loop clock stream fuel 0 0.

End Run.

Arguments Process {AD}.

End realtime_run.

(** ** src/dashboard/app.py *)

Module dashboard.

Import features realtime_loop.
Local Open Scope string_scope.

Section App.

Context `{RT : Runtime} `{AD : Adapters} `{FS : Files}.

Definition STREAM_PATH : string :=
  BASE_DIR ++ "/data/processed/ai4i2020_stream_realistic.csv".

(** [st.session_state], with the keys the application uses: a key is
    absent ([None]) until it is first set.  [last_processed] holds
    [None] or the time of the last batch. *)
Record SessionState := {
  pipeline : option RealtimePipeline;
  stream_df : option (list Series);
  stream_pos : option Z;
  auto_run : option bool;
  last_processed : option (option Q);
  stream_paused : option bool;
  resolved_critical_rows : option (list Z);
}.

Definition empty_session : SessionState :=
  {| pipeline := None; stream_df := None; stream_pos := None;
     auto_run := None; last_processed := None; stream_paused := None;
     resolved_critical_rows := None |}.

(** [st.session_state[key] = value], key by key *)
Definition set_pipeline (v : RealtimePipeline) (s : SessionState) :=
  {| pipeline := Some v; stream_df := stream_df s;
     stream_pos := stream_pos s; auto_run := auto_run s;
     last_processed := last_processed s; stream_paused := stream_paused s;
     resolved_critical_rows := resolved_critical_rows s |}.
Definition set_stream_df (v : list Series) (s : SessionState) :=
  {| pipeline := pipeline s; stream_df := Some v;
     stream_pos := stream_pos s; auto_run := auto_run s;
     last_processed := last_processed s; stream_paused := stream_paused s;
     resolved_critical_rows := resolved_critical_rows s |}.
Definition set_stream_pos (v : Z) (s : SessionState) :=
  {| pipeline := pipeline s; stream_df := stream_df s;
     stream_pos := Some v; auto_run := auto_run s;
     last_processed := last_processed s; stream_paused := stream_paused s;
     resolved_critical_rows := resolved_critical_rows s |}.
Definition set_auto_run (v : bool) (s : SessionState) :=
  {| pipeline := pipeline s; stream_df := stream_df s;
     stream_pos := stream_pos s; auto_run := Some v;
     last_processed := last_processed s; stream_paused := stream_paused s;
     resolved_critical_rows := resolved_critical_rows s |}.
Definition set_last_processed (v : option Q) (s : SessionState) :=
  {| pipeline := pipeline s; stream_df := stream_df s;
     stream_pos := stream_pos s; auto_run := auto_run s;
     last_processed := Some v; stream_paused := stream_paused s;
     resolved_critical_rows := resolved_critical_rows s |}.
Definition set_stream_paused (v : bool) (s : SessionState) :=
  {| pipeline := pipeline s; stream_df := stream_df s;
     stream_pos := stream_pos s; auto_run := auto_run s;
     last_processed := last_processed s; stream_paused := Some v;
     resolved_critical_rows := resolved_critical_rows s |}.
Definition set_resolved_critical_rows (v : list Z) (s : SessionState) :=
  {| pipeline := pipeline s; stream_df := stream_df s;
     stream_pos := stream_pos s; auto_run := auto_run s;
     last_processed := last_processed s; stream_paused := stream_paused s;
     resolved_critical_rows := Some v |}.

(** [st.session_state[key]]: a KeyError when the key is absent. *)
Definition getkey {A} (key : string) (field : SessionState -> option A)
  : M SessionState A :=
  fun s =>
    match field s with
    | Some v => (inr v, s)
    | None => (inl (etl.KeyError key), s)
    end.

(** [if key not in st.session_state: st.session_state[key] = value],
    where computing the value may raise. *)
Definition setdefault {A} (field : SessionState -> option A)
    (set : A -> SessionState -> SessionState) (value : result A)
  : M SessionState unit :=
  fun s =>
    match field s with
    | Some _ => (inr tt, s)
    | None =>
        match value with
        | inl e => (inl e, s)
        | inr v => (inr tt, set v s)
        end
    end.

(** [new_pipeline] is the outcome of [RealtimePipeline()], which loads
    the five models. *)
Definition init_state (new_pipeline : result RealtimePipeline)
  : M SessionState unit :=
  setdefault pipeline set_pipeline new_pipeline ;;;
  setdefault stream_df set_stream_df (read_csv STREAM_PATH) ;;;
  setdefault stream_pos set_stream_pos (inr 0%Z) ;;;
  setdefault auto_run set_auto_run (inr false) ;;;
  setdefault last_processed set_last_processed (inr None) ;;;
  setdefault stream_paused set_stream_paused (inr false) ;;;
  setdefault resolved_critical_rows set_resolved_critical_rows (inr []).

(** An index of a slice, brought into the bounds of a sequence of
    length [n]: a negative index counts from the end. *)
Definition slice_index (n i : Z) : Z :=
  if (i <? 0)%Z then Z.max (i + n) 0 else Z.min i n.

(** [df.iloc[lo:hi]] *)
Definition iloc {A} (df : list A) (lo hi : Z) : list A :=
  let n := Z.of_nat (List.length df) in
  let lo := slice_index n lo in
  let hi := slice_index n hi in
  firstn (Z.to_nat (hi - lo)) (skipn (Z.to_nat lo) df).

(** [pipeline.process_row(row, idx)], on the pipeline the session
    holds. *)
Definition pipeline_process_row (now : datetime) (row : Series) (idx : Z)
  : M SessionState RealtimeOutput :=
  fun s =>
    match pipeline s with
    | None => (inl (etl.KeyError "pipeline"), s)
    | Some p =>
        let (r, p') := process_row now row idx p in
        (r, set_pipeline p' s)
    end.

(** [for i, (_, row) in enumerate(rows.iterrows()): ...], from the
    count [i] on. *)
Fixpoint for_rows (clock : Z -> datetime) (pos : Z) (rows : list Series)
    (i : Z) : M SessionState unit :=
  match rows with
  | [] => ret tt
  | row :: rest =>
      let streaming_idx := (pos + i)%Z in
      pipeline_process_row (clock streaming_idx) row streaming_idx ;;;
      for_rows clock pos rest (i + 1)%Z
  end.

(** [clock idx] is what [datetime.now()] reads when the row of index
    [idx] is decided, [time_now] what [time.time()] reads after the
    batch.  The pipeline passed in is the one the session holds. *)
Definition process_batch (clock : Z -> datetime) (time_now : Q)
    (batch_size : Z) : M SessionState Z :=
  df <- getkey "stream_df" stream_df ;;
  pos <- getkey "stream_pos" stream_pos ;;
  let n := Z.of_nat (List.length df) in
  if (pos >=? n)%Z then ret 0%Z
  else
    let end_ := Z.min (pos + batch_size) n in
    let rows := iloc df pos end_ in
    for_rows clock pos rows 0 ;;;
    modify (set_stream_pos end_) ;;;
    modify (set_last_processed (Some time_now)) ;;;
    ret (Z.of_nat (List.length rows)).

(** [compute_effective_cost(row)] of [main], with the set of resolved
    rows it closes over. *)
Definition compute_effective_cost (resolved_rows : list Z)
    (row : RealtimeOutput) : Q :=
  let action := maintenance_action row in
  if contains ["normal"; "monitor"] action then 0.0
  else if existsb (Z.eqb (row_index row)) resolved_rows then 0.0
  else expected_cost row.



End App.

Arguments SessionState {AD}.

End dashboard.

(** ** A stream and its files to run the loops on concrete inputs *)

Module SampleStream.

Import Sample.
Local Open Scope string_scope.

Definition two_rows : list features.Series :=
  [observation; observation_without_torque].

(** Only the prepared data set exists, and it holds the two rows. *)
Definition files : Files :=
  {| BASE_DIR := "/amos";
     path_exists := fun _ => false;
     read_csv := fun path =>
       if path =? "/amos/data/processed/ai4i2020_prepared.csv"
       then inr two_rows
       else inl {| exc_class := "FileNotFoundError"; exc_message := path |} |}.

Definition one_pass : stream_simulator.StreamSimulator :=
  {| stream_simulator.path := "rows.csv";
     stream_simulator.sleep_seconds := 0;
     stream_simulator.loop_forever := false;
     stream_simulator.df := two_rows |}.

Definition looping : stream_simulator.StreamSimulator :=
  {| stream_simulator.path := "rows.csv";
     stream_simulator.sleep_seconds := 0;
     stream_simulator.loop_forever := true;
     stream_simulator.df := two_rows |}.

(** The continuous mode on the healthy line, with a silent console. *)
Definition healthy_process : realtime_run.Process (AD := canned_adapters) :=
  {| realtime_run.pipeline := healthy_line; realtime_run.console := [] |}.

Definition run_healthy (fuel : nat) :=
  realtime_run.run_forever (RT := minutes_runtime) (AD := canned_adapters)
    (FS := files) (fun idx => inject_Z idx) fuel healthy_process.

End SampleStream.

(** ** What a batch leaves of the session *)

Module Session.

Import realtime_loop dashboard.

Section WithCollaborators.

Context `{AD : Adapters}.

(** Every key but the pipeline holds in [s'] what it holds in [s]. *)
Definition same_but_pipeline (s s' : SessionState) : Prop :=
  stream_df s' = stream_df s
  /\ stream_pos s' = stream_pos s
  /\ auto_run s' = auto_run s
  /\ last_processed s' = last_processed s
  /\ stream_paused s' = stream_paused s
  /\ resolved_critical_rows s' = resolved_critical_rows s.

(** The rows [outs] were processed from position [start] of [rows] on,
    one after the other: the pipeline [p'] holds them after what [p]
    held, and each one carries its index and its row. *)
Definition processed (start : Z) (rows : list features.Series)
    (p p' : RealtimePipeline) (outs : list RealtimeOutput) : Prop :=
  buffer p' = buffer.append_all (buffer p) outs
  /\ forall j out,
       nth_error outs j = Some out ->
       row_index out = (start + Z.of_nat j)%Z
       /\ nth_error rows j = Some (raw_row out).

End WithCollaborators.

End Session.

(** ** A session to run the dashboard on concrete inputs *)

Module SampleSession.

Import Sample SampleStream.

Definition session_of (line : realtime_loop.RealtimePipeline (AD := canned_adapters))
  : dashboard.SessionState (AD := canned_adapters) :=
  {| dashboard.pipeline := Some line;
     dashboard.stream_df := Some two_rows;
     dashboard.stream_pos := Some 0%Z;
     dashboard.auto_run := Some false;
     dashboard.last_processed := Some None;
     dashboard.stream_paused := Some false;
     dashboard.resolved_critical_rows := Some [] |}.

(** A batch of [batch_size] rows, decided at the minute of their index
    and finished at time 99. *)
Definition run_batch (batch_size : Z) :=
  dashboard.process_batch (RT := minutes_runtime) (AD := canned_adapters)
    (fun idx => inject_Z idx) 99 batch_size.

End SampleSession.

(** ** Reading the flags of a row *)

Module Flags.

Import features.

(** The row has no column [c]. *)
Definition missing (row : Series) (c : string) : bool :=
  match lookup row c with
  | Some _ => false
  | None => true
  end.

(** The row has a column [c] and its value is 1. *)
Definition flag_set (row : Series) (c : string) : bool :=
  match lookup row c with
  | Some v => etl.eq_number v 1
  | None => false
  end.

End Flags.

(** ** The inputs each rule answers for *)

Module Regions.

Import Policy.
Local Open Scope string_scope.

(** The investigate rule fires. *)
Definition investigates (mode : string) (flag : bool) : Prop :=
  flag = true /\ mode = "NORMAL".

(** The inputs on which each rule is the first one that holds. *)
Definition region (p : Q) (mode : string) (rul : Q) (flag : bool)
    (r : rule) : Prop :=
  match r with
  | anomaly_without_fault => investigates mode flag
  | critical => ~ investigates mode flag /\ (0.7 < p \/ rul < 30)
  | urgent =>
      ~ investigates mode flag /\ 0.5 < p <= 0.7 /\ 30 <= rul < 60
  | schedule_soon_probability =>
      ~ investigates mode flag /\ 0.35 < p <= 0.7 /\ 30 <= rul < 120
      /\ (p <= 0.5 \/ 60 <= rul)
  | monitor => ~ investigates mode flag /\ 0.35 < p <= 0.7 /\ 120 <= rul
  | low_rul_fallback =>
      ~ investigates mode flag /\ p <= 0.35 /\ 30 <= rul < 60
  | normal => ~ investigates mode flag /\ p <= 0.35 /\ 60 <= rul
  end.

End Regions.

(** * Properties *)

(** ** Float comparisons as inequalities *)

Module PyFacts.

Import Py.

Lemma gt_true x y : gt x y = true <-> y < x.
Proof.
  unfold gt. rewrite negb_true_iff, <- not_true_iff_false, Qle_bool_iff.
  split; [apply Qnot_le_lt | apply Qlt_not_le].
Qed.

Lemma gt_false x y : gt x y = false <-> x <= y.
Proof.
  unfold gt. rewrite negb_false_iff. apply Qle_bool_iff.
Qed.

Lemma lt_true x y : lt x y = true <-> x < y.
Proof. apply (gt_true y x). Qed.

Lemma lt_false x y : lt x y = false <-> y <= x.
Proof. apply (gt_false y x). Qed.

Lemma ge_true x y : ge x y = true <-> y <= x.
Proof. apply Qle_bool_iff. Qed.

Lemma ge_false x y : ge x y = false <-> x < y.
Proof.
  unfold ge. rewrite <- not_true_iff_false, Qle_bool_iff.
  split; [apply Qnot_le_lt | apply Qlt_not_le].
Qed.

Lemma min_cases a b :
  (b < a /\ min a b = b) \/ (a <= b /\ min a b = a).
Proof.
  unfold min. destruct (lt b a) eqn:E.
  - left. split; [now apply lt_true | reflexivity].
  - right. split; [now apply lt_false | reflexivity].
Qed.

Lemma max_cases a b :
  (a < b /\ max a b = b) \/ (b <= a /\ max a b = a).
Proof.
  unfold max. destruct (gt b a) eqn:E.
  - left. split; [now apply gt_true | reflexivity].
  - right. split; [now apply gt_false | reflexivity].
Qed.

End PyFacts.

(** Turns the float comparisons of the context into inequalities on [Q]. *)
Ltac py_cmp :=
  repeat match goal with
  | H : Py.gt _ _ = true |- _ => apply PyFacts.gt_true in H
  | H : Py.gt _ _ = false |- _ => apply PyFacts.gt_false in H
  | H : Py.lt _ _ = true |- _ => apply PyFacts.lt_true in H
  | H : Py.lt _ _ = false |- _ => apply PyFacts.lt_false in H
  | H : Py.ge _ _ = true |- _ => apply PyFacts.ge_true in H
  | H : Py.ge _ _ = false |- _ => apply PyFacts.ge_false in H
  | H : (_ && _)%bool = true |- _ => apply andb_true_iff in H; destruct H
  | H : (_ || _)%bool = false |- _ => apply orb_false_iff in H; destruct H
  end.

(** ** The maintenance policy engine *)

Module PolicyFacts.

Import config optimization_model Policy.
Local Open Scope string_scope.

Section WithRuntime.

Context `{RT : Runtime}.

Lemma anomaly_rule_false p mode rul flag :
  (flag && (mode =? "NORMAL"))%bool = false ->
  ~ holds p mode rul flag anomaly_without_fault.
Proof.
  intros E [Hf Hm]. subst.
  now rewrite String.eqb_refl in E.
Qed.

(** Solves [first_match] once the position of the rule is given. *)
Ltac first_match_at earlier :=
  exists earlier; eexists; split; [reflexivity | split];
  [ repeat constructor;
    try (now apply anomaly_rule_false);
    unfold holds, FAILURE_PROBA_THRESHOLD in *; lra
  | unfold holds, FAILURE_PROBA_THRESHOLD in *;
    try tauto; try lra ].

(** The decision tree takes the branch of the first rule that holds. *)
Lemma decision_tree_branch now p mode rul score flag ct :
  let d := optimize_maintenance_decision now p mode rul score flag ct in
  exists r c,
    first_match (holds p mode rul flag) evaluation_order r
    /\ branch p mode rul score flag (reference_time now ct) r c
         (scheduled_time d)
    /\ action d = outcome r
    /\ confidence d = Py.min c 1.0.
Proof.
  unfold optimize_maintenance_decision, decision_tree.
  fold (reference_time now ct).
  destruct (flag && (mode =? "NORMAL"))%bool eqn:Ea.
  { exists anomaly_without_fault; eexists.
    split; [| split; [apply br_investigate | split; reflexivity]].
    apply andb_true_iff in Ea as [Hf Hm]. apply String.eqb_eq in Hm.
    exists []; eexists; split; [reflexivity | split];
      [constructor | split; assumption]. }
  destruct (Py.gt p 0.7 || Py.lt rul 30)%bool eqn:Eb.
  { exists critical; eexists.
    split; [| split; [apply br_critical | split; reflexivity]].
    apply orb_true_iff in Eb.
    assert (Hb : 0.7 < p \/ rul < 30) by (destruct Eb; py_cmp; tauto).
    first_match_at [anomaly_without_fault]. }
  py_cmp.
  destruct (Py.gt p 0.5 && Py.lt rul 60)%bool eqn:Ec.
  { exists urgent; eexists.
    split; [| split; [apply br_urgent | split; reflexivity]].
    py_cmp. first_match_at [anomaly_without_fault; critical]. }
  assert (Hc : ~ (0.5 < p /\ rul < 60)).
  { intros [H1 H2]. apply PyFacts.gt_true in H1. apply PyFacts.lt_true in H2.
    rewrite H1, H2 in Ec. discriminate. }
  clear Ec.
  destruct (Py.gt p FAILURE_PROBA_THRESHOLD && Py.lt rul 120)%bool eqn:Ed.
  { exists schedule_soon_probability; eexists.
    split; [| split; [apply br_soon | split; reflexivity]].
    py_cmp. first_match_at [anomaly_without_fault; critical; urgent]. }
  assert (Hd : ~ (FAILURE_PROBA_THRESHOLD < p /\ rul < 120)).
  { intros [H1 H2]. apply PyFacts.gt_true in H1. apply PyFacts.lt_true in H2.
    rewrite H1, H2 in Ed. discriminate. }
  clear Ed.
  destruct (Py.gt p FAILURE_PROBA_THRESHOLD) eqn:Ee.
  { exists monitor; eexists.
    split; [| split; [apply br_monitor | split; reflexivity]].
    py_cmp.
    first_match_at
      [anomaly_without_fault; critical; urgent; schedule_soon_probability]. }
  py_cmp.
  destruct (Py.lt rul 60) eqn:Ef.
  { exists low_rul_fallback; eexists.
    split; [| split; [apply br_fallback | split; reflexivity]].
    py_cmp.
    first_match_at
      [anomaly_without_fault; critical; urgent; schedule_soon_probability;
       monitor]. }
  py_cmp.
  exists normal; eexists.
  split; [| split; [apply br_normal | split; reflexivity]].
  first_match_at
    [anomaly_without_fault; critical; urgent; schedule_soon_probability;
     monitor; low_rul_fallback].
Qed.

Lemma first_match_unique (trigger : rule -> Prop) order r r' :
  first_match trigger order r -> first_match trigger order r' -> r = r'.
Proof.
  intros (e1 & l1 & H1 & F1 & T1) (e2 & l2 & H2 & F2 & T2).
  subst order. revert e2 H2 F2.
  induction e1 as [|x e1 IH]; intros [|y e2] H2 F2; simpl in H2;
    injection H2 as Hhd Htl.
  - congruence.
  - subst y. inversion F2; contradiction.
  - subst x. inversion F1; contradiction.
  - inversion F1; inversion F2; subst. eapply IH; eassumption.
Qed.

Lemma expected_cost_eq now p mode rul score flag ct :
  let d := optimize_maintenance_decision now p mode rul score flag ct in
  expected_cost d = compute_expected_cost p rul (action d).
Proof.
  unfold optimize_maintenance_decision.
  destruct (decision_tree _ _ _ _ _ _) as [[[a c] r] s]. reflexivity.
Qed.

(** C1. The rules are tried in the order (a) anomaly without fault,
    (b) critical, (c) urgent, (d) schedule soon on probability,
    (e) monitor, (f) low remaining life, (g) normal; a first rule
    whose trigger holds always exists, and it alone decides the
    action, whatever later triggers hold as well.  In particular a
    raised anomaly flag with mode NORMAL gives investigate for every
    probability and remaining life. *)
Theorem rule_order_first_match now p mode rul score flag ct :
  let d := optimize_maintenance_decision now p mode rul score flag ct in
  (exists r,
      first_match (holds p mode rul flag) evaluation_order r
      /\ action d = outcome r)
  /\ (forall r,
      first_match (holds p mode rul flag) evaluation_order r ->
      action d = outcome r)
  /\ action (optimize_maintenance_decision now p "NORMAL" rul score true ct)
     = INVESTIGATE.
Proof.
  intros d.
  destruct (decision_tree_branch now p mode rul score flag ct)
    as (r0 & c & Hfirst & _ & Hact & _).
  fold d in Hact.
  split; [| split].
  - exists r0. split; assumption.
  - intros r Hr.
    rewrite (first_match_unique _ _ _ _ Hr Hfirst). exact Hact.
  - reflexivity.
Qed.

(** C2. When the investigate rule does not fire, a failure
    probability above 0.70 or a remaining life below 30 minutes gives
    critical_immediate, priority rank 1, scheduled at the supplied
    current time. *)
Theorem critical_when_high_risk_or_low_rul now p mode rul score flag ct :
  flag = false \/ mode <> "NORMAL" ->
  0.7 < p \/ rul < 30 ->
  let d := optimize_maintenance_decision now p mode rul score flag ct in
  action d = CRITICAL_IMMEDIATE
  /\ get_maintenance_priority d = 1%Z
  /\ scheduled_time d = Some (reference_time now ct).
Proof.
  intros Hno Hcrit d.
  destruct (decision_tree_branch now p mode rul score flag ct)
    as (r & c & Hfirst & Hbr & Hact & _).
  fold d in Hbr, Hact.
  assert (Hr : r = critical).
  { apply (first_match_unique _ _ _ _ Hfirst).
    exists [anomaly_without_fault]; eexists.
    split; [reflexivity | split; [| exact Hcrit]].
    repeat constructor. intros [Hf Hm].
    destruct Hno as [Hno | Hno]; congruence. }
  subst r. inversion Hbr; subst.
  unfold get_maintenance_priority. rewrite Hact. simpl.
  repeat split; congruence.
Qed.

Lemma max_min_is_clamp x lo hi :
  lo <= hi -> Py.max (Py.min x hi) lo = clamp x lo hi.
Proof.
  intros Hlh. unfold clamp.
  destruct (PyFacts.min_cases x hi) as [[H1 ->] | [H1 ->]];
    [destruct (PyFacts.max_cases hi lo) as [[H2 ->] | [H2 ->]]
    |destruct (PyFacts.max_cases x lo) as [[H2 ->] | [H2 ->]]];
    destruct (Qlt_le_dec x lo); try destruct (Qlt_le_dec hi x);
    try reflexivity; lra.
Qed.

Lemma max_is_at_least x lo : Py.max x lo = at_least x lo.
Proof.
  unfold at_least.
  destruct (PyFacts.max_cases x lo) as [[H ->] | [H ->]];
    destruct (Qlt_le_dec x lo); try reflexivity; lra.
Qed.

(** The confidence stays in [0,1] as long as the investigate rule is
    not reached with a negative anomaly score. *)
Lemma confidence_bounds now p mode rul score flag ct :
  0 <= p <= 1 ->
  0 <= score ->
  let d := optimize_maintenance_decision now p mode rul score flag ct in
  0 <= confidence d <= 1.
Proof.
  intros Hp Hs d.
  destruct (decision_tree_branch now p mode rul score flag ct)
    as (r & c & _ & Hbr & _ & Hc).
  fold d in Hc. rewrite Hc. clear Hc.
  inversion Hbr; subst; clear Hbr;
    match goal with
    | |- context [Py.min ?a 1.0] =>
        destruct (PyFacts.min_cases a 1.0) as [[H1 ->] | [H1 ->]]
    end;
    try lra.
  - destruct (PyFacts.min_cases score 0.95) as [[Hm E] | [Hm E]];
      rewrite E in *; lra.
  - destruct (PyFacts.max_cases p (1.0 - rul / 30.0)) as [[Hm E] | [Hm E]];
      rewrite E in *; lra.
Qed.

(** C7. For a failure probability in [0,1] the expected cost is never
    negative: the maintenance cost plus 2.0, 1.5 or 1.0 hours of
    downtime for critical, urgent and soon, the probability times the
    cost of an unplanned failure for monitor and normal, and the
    constant 100 for investigate. *)
Theorem expected_cost_nonnegative now p mode rul score flag ct :
  0 <= p <= 1 ->
  let d := optimize_maintenance_decision now p mode rul score flag ct in
  0 <= expected_cost d
  /\ expected_cost d ==
     match action d with
     | CRITICAL_IMMEDIATE => MAINTENANCE_COST + 2.0 * DOWNTIME_COST_PER_HOUR
     | SCHEDULE_URGENT => MAINTENANCE_COST + 1.5 * DOWNTIME_COST_PER_HOUR
     | SCHEDULE_SOON => MAINTENANCE_COST + 1.0 * DOWNTIME_COST_PER_HOUR
     | MONITOR | NORMAL => p * FAILURE_COST
     | INVESTIGATE => 100
     end.
Proof.
  intros Hp d. unfold d. rewrite expected_cost_eq. fold d.
  destruct (action d); simpl;
    unfold MAINTENANCE_COST, DOWNTIME_COST_PER_HOUR, FAILURE_COST;
    split; lra.
Qed.

(** C8. The scheduled time follows the rule that fired: the current
    time for critical; the current time plus
    clamp(rul - margin, 30, 240) minutes for urgent; plus
    max(rul - margin, 60) minutes for schedule soon, with 30 in place
    of 60 in the low remaining life fallback; plus two hours for
    investigate; none for monitor and normal. *)
Theorem scheduled_time_follows_action now p mode rul score flag ct :
  let d := optimize_maintenance_decision now p mode rul score flag ct in
  exists r,
    first_match (holds p mode rul flag) evaluation_order r
    /\ action d = outcome r
    /\ scheduled_time d = schedule rul (reference_time now ct) r.
Proof.
  intros d.
  destruct (decision_tree_branch now p mode rul score flag ct)
    as (r & c & Hfirst & Hbr & Hact & _).
  fold d in Hbr, Hact.
  exists r. split; [exact Hfirst | split; [exact Hact |]].
  inversion Hbr; subst; simpl; try reflexivity.
  - rewrite max_min_is_clamp by lra. reflexivity.
  - rewrite max_is_at_least. reflexivity.
  - rewrite max_is_at_least. reflexivity.
Qed.

(** The action, the cost and the priority rank do not depend on the
    time the decision is taken at. *)
Lemma decision_independent_of_time now1 now2 p mode rul score flag ct1 ct2 :
  let d1 := optimize_maintenance_decision now1 p mode rul score flag ct1 in
  let d2 := optimize_maintenance_decision now2 p mode rul score flag ct2 in
  action d1 = action d2
  /\ expected_cost d1 = expected_cost d2
  /\ get_maintenance_priority d1 = get_maintenance_priority d2.
Proof.
  intros d1 d2.
  assert (Ha : action d1 = action d2).
  { destruct (decision_tree_branch now1 p mode rul score flag ct1)
      as (r1 & _ & H1 & _ & A1 & _).
    destruct (decision_tree_branch now2 p mode rul score flag ct2)
      as (r2 & _ & H2 & _ & A2 & _).
    fold d1 in A1. fold d2 in A2.
    rewrite A1, A2, (first_match_unique _ _ _ _ H1 H2). reflexivity. }
  unfold d1 at 2, d2 at 2. rewrite !expected_cost_eq. fold d1 d2.
  unfold get_maintenance_priority. rewrite Ha. auto.
Qed.

(** C9. Two calls with the same probability, mode, remaining life,
    anomaly score and flag and the same supplied current time return
    the same decision, whatever the clock reads at each call: the
    same action, expected cost and priority rank. *)
Theorem policy_deterministic now1 now2 p mode rul score flag t :
  let d1 :=
    optimize_maintenance_decision now1 p mode rul score flag (Some t) in
  let d2 :=
    optimize_maintenance_decision now2 p mode rul score flag (Some t) in
  d1 = d2
  /\ action d1 = action d2
  /\ expected_cost d1 = expected_cost d2
  /\ get_maintenance_priority d1 = get_maintenance_priority d2.
Proof.
  intros d1 d2.
  assert (E : d1 = d2) by reflexivity.
  rewrite E. auto.
Qed.

End WithRuntime.

(** *** The policy on concrete inputs *)

Import Sample.

(** Probability 0.85, remaining life 100, mode TWF: critical, rank 1,
    scheduled now. *)
Example scenario_high_probability :
  let d := decide_at 0 0.85 "TWF" 100 0.5 false (Some 7) in
  action d = CRITICAL_IMMEDIATE
  /\ get_maintenance_priority d = 1%Z
  /\ scheduled_time d = Some 7
  /\ expected_cost d == 2500.
Proof. vm_compute. repeat split. Qed.

(** Probability 0.30, remaining life 20, mode HDF: critical all the
    same. *)
Example scenario_low_rul :
  let d := decide_at 0 0.3 "HDF" 20 0.4 false (Some 7) in
  action d = CRITICAL_IMMEDIATE /\ get_maintenance_priority d = 1%Z.
Proof. vm_compute. repeat split. Qed.

(** Probability 0.10, remaining life 200, mode NORMAL: normal, rank 6,
    nothing scheduled. *)
Example scenario_normal :
  let d := decide_at 0 0.1 "NORMAL" 200 0.3 false (Some 7) in
  action d = NORMAL
  /\ get_maintenance_priority d = 6%Z
  /\ scheduled_time d = None.
Proof. vm_compute. repeat split. Qed.

(** Probability 0.20, remaining life 150, anomaly flagged, mode NORMAL:
    investigate, rank 3, scheduled two hours from now. *)
Example scenario_anomaly :
  let d := decide_at 0 0.2 "NORMAL" 150 0.8 true (Some 7) in
  action d = INVESTIGATE
  /\ get_maintenance_priority d = 3%Z
  /\ scheduled_time d = Some (7 + 2 * 60).
Proof. vm_compute. repeat split. Qed.

(** Probability 0.60, remaining life 45: urgent, 30 minutes from now
    (45 - 20 is clamped up to 30). *)
Example scenario_urgent :
  let d := decide_at 0 0.6 "OSF" 45 0.1 false (Some 7) in
  action d = SCHEDULE_URGENT /\ scheduled_time d = Some (7 + 30).
Proof. vm_compute. repeat split. Qed.

Lemma rule_order_first_match_witness :
  action (decide_at 0 0.85 "TWF" 100 0.5 true (Some 7)) = outcome critical.
Proof.
  destruct (rule_order_first_match (RT := Sample.minutes_runtime)
              0 0.85 "TWF" 100 0.5 true (Some 7)) as (_ & Hall & _).
  apply (Hall critical).
  exists [anomaly_without_fault]; exists
    [urgent; schedule_soon_probability; monitor; low_rul_fallback; normal].
  split; [reflexivity | split].
  - constructor; [| constructor]. intros [_ Hmode]. discriminate Hmode.
  - left. reflexivity.
Defined.

Lemma critical_when_high_risk_or_low_rul_witness :
  let d := decide_at 0 0.85 "TWF" 100 0.5 false (Some 7) in
  action d = CRITICAL_IMMEDIATE
  /\ get_maintenance_priority d = 1%Z
  /\ scheduled_time d = Some 7.
Proof.
  apply (critical_when_high_risk_or_low_rul (RT := Sample.minutes_runtime)
           0 0.85 "TWF" 100 0.5 false (Some 7)).
  - left. reflexivity.
  - left. reflexivity.
Defined.

Lemma expected_cost_nonnegative_witness :
  0 <= expected_cost (decide_at 0 0.2 "NORMAL" 150 0.8 true (Some 7)).
Proof.
  apply (expected_cost_nonnegative (RT := Sample.minutes_runtime)
           0 0.2 "NORMAL" 150 0.8 true (Some 7)).
  split; unfold Qle; simpl; lia.
Defined.

(** C6. The confidence is not kept above 0: the investigate rule takes
    [min(anomaly_score, 0.95)], and the final [min(confidence, 1.0)]
    bounds it from above only.  With the anomaly flag raised, mode
    NORMAL and an anomaly score of -0.5 the decision carries a
    confidence of -0.5, outside [0,1]. *)
Theorem investigate_confidence_below_zero :
  let d := decide_at 0 0.2 "NORMAL" 150 (-0.5) true (Some 7) in
  action d = INVESTIGATE
  /\ confidence d = -0.5
  /\ ~ (0 <= confidence d <= 1).
Proof.
  vm_compute. repeat split.
  intros [H _]. apply H. reflexivity.
Qed.

End PolicyFacts.

(** ** The history buffer *)

Module BufferFacts.

Import buffer.

Section WithRecords.

Context {A : Type}.
Implicit Types (b : InMemoryBuffer A) (d items : list A) (x : A).

(** On a deque within its bound, [append] keeps the last [maxlen]
    items of what it held followed by the new item. *)
Lemma deque_append_keeps_last (N : nat) d x :
  (List.length d <= N)%nat ->
  deque_append N d x
  = skipn (List.length (d ++ [x]) - N) (d ++ [x]).
Proof.
  intros Hd. unfold deque_append.
  rewrite length_app. simpl List.length.
  destruct (Nat.ltb_spec N (List.length d + 1)) as [Hfull | Hroom].
  - replace (List.length d + 1 - N)%nat with 1%nat by lia.
    destruct (d ++ [x]); reflexivity.
  - replace (List.length d + 1 - N)%nat with 0%nat by lia.
    reflexivity.
Qed.

Lemma deque_append_bounded (N : nat) d x :
  (List.length d <= N)%nat ->
  (List.length (deque_append N d x) <= N)%nat.
Proof.
  intros Hd. rewrite deque_append_keeps_last by exact Hd.
  rewrite length_skipn. lia.
Qed.

Lemma append_all_maxlen b items :
  maxlen (append_all b items) = maxlen b.
Proof.
  unfold append_all. revert b.
  induction items as [|x items IH]; intros b; simpl.
  - reflexivity.
  - rewrite IH. reflexivity.
Qed.

(** From any buffer within its bound, a run of appends leaves the last
    [maxlen] items of the old contents followed by the new items. *)
Lemma append_all_keeps_last b items :
  (List.length (_data b) <= maxlen b)%nat ->
  _data (append_all b items)
  = skipn (List.length (_data b ++ items) - maxlen b) (_data b ++ items).
Proof.
  revert b. induction items as [|x items IH]; intros b Hb.
  - simpl. rewrite app_nil_r.
    replace (List.length (_data b) - maxlen b)%nat with 0%nat by lia.
    reflexivity.
  - change (append_all b (x :: items))
      with (append_all (append b x) items).
    rewrite IH by (apply deque_append_bounded; exact Hb).
    simpl maxlen. simpl _data.
    rewrite deque_append_keeps_last by exact Hb.
    set (k := (List.length (_data b ++ [x]) - maxlen b)%nat).
    assert (Hk : (k <= List.length (_data b ++ [x]))%nat) by lia.
    replace (_data b ++ x :: items) with ((_data b ++ [x]) ++ items)
      by (rewrite <- app_assoc; reflexivity).
    rewrite <- (firstn_skipn k (_data b ++ [x])) at 3 4.
    rewrite <- !app_assoc.
    assert (Hlen : List.length (firstn k (_data b ++ [x])) = k)
      by (apply firstn_length_le; exact Hk).
    rewrite (skipn_app (_ - _) (firstn k _)).
    rewrite !length_app, Hlen, !length_skipn.
    fold k.
    rewrite (skipn_all2 (firstn k _)) by (rewrite Hlen; unfold k; lia).
    simpl. f_equal. unfold k. rewrite !length_app. simpl. lia.
Qed.

(** C3. After any run of appends to a fresh buffer of capacity [N],
    the buffer holds at most [N] records; [all()] is the last
    min(appends, N) of them, in the order they were appended; and
    one more append adds the record at the end, dropping the oldest
    record when the buffer is full.  With capacity 3, appending
    0, 1, 2, 3 leaves 1, 2, 3. *)
Theorem buffer_fifo (N : nat) items x :
  let b := append_all (init N) items in
  (len b <= N)%nat
  /\ len b = Nat.min (List.length items) N
  /\ all b = skipn (List.length items - N) items
  /\ all (append b x)
     = (if (len b <? N)%nat then all b ++ [x] else tl (all b ++ [x]))
  /\ all (append_all (init 3) [0; 1; 2; 3]%nat) = [1; 2; 3]%nat.
Proof.
  intros b.
  assert (Hall : all b = skipn (List.length items - N) items).
  { unfold all, b.
    rewrite append_all_keeps_last by (simpl; lia). reflexivity. }
  assert (Hlen : len b = Nat.min (List.length items) N).
  { unfold len. fold (all b). rewrite Hall, length_skipn. lia. }
  repeat split.
  - lia.
  - exact Hlen.
  - exact Hall.
  - unfold all, append, deque_append. simpl _data.
    unfold b at 1. rewrite append_all_maxlen. simpl maxlen.
    rewrite length_app. simpl List.length. fold (len b).
    destruct (Nat.ltb_spec N (len b + 1)), (Nat.ltb_spec (len b) N);
      try reflexivity; lia.
Qed.

End WithRecords.

End BufferFacts.

(** ** The feature view *)

Module FeatureFacts.

Import features.
Local Open Scope string_scope.

Lemma drop_app df1 df2 labels :
  drop (df1 ++ df2)%list labels = (drop df1 labels ++ drop df2 labels)%list.
Proof. apply filter_app. Qed.

(** Adding label columns that are missing changes nothing once the
    label columns are dropped. *)
Lemma drop_after_defaults (cs : list string) (df : DataFrame) :
  forallb (contains FAILURE_COLS) cs = true ->
  drop (fold_left
          (fun df c => if negb (contains (columns df) c)
                       then setitem df c (Num 0) else df)
          cs df) FAILURE_COLS
  = drop df FAILURE_COLS.
Proof.
  revert df. induction cs as [|c cs IH]; intros df Hcs; simpl.
  - reflexivity.
  - simpl in Hcs. apply andb_true_iff in Hcs as [Hc Hcs].
    rewrite IH by exact Hcs.
    unfold setitem.
    destruct (contains (columns df) c); simpl.
    + reflexivity.
    + rewrite drop_app. unfold drop at 2. simpl filter.
      rewrite Hc. simpl. apply app_nil_r.
Qed.

Lemma build_is_drop (row : Series) :
  build_single_row_feature_df row = drop row FAILURE_COLS.
Proof.
  unfold build_single_row_feature_df, to_frame_T.
  apply drop_after_defaults. reflexivity.
Qed.

Lemma contains_eqb labels k c :
  (k =? c) = true -> contains labels k = contains labels c.
Proof. intros E. apply String.eqb_eq in E. now subst. Qed.

Lemma lookup_drop (df : DataFrame) labels c :
  lookup (drop df labels) c
  = if contains labels c then None else lookup df c.
Proof.
  induction df as [|[k v] df IH]; simpl.
  - now destruct (contains labels c).
  - destruct (k =? c) eqn:E.
    + rewrite (contains_eqb labels k c E).
      destruct (contains labels c); simpl.
      * exact IH.
      * now rewrite E.
    + destruct (contains labels k); simpl.
      * exact IH.
      * rewrite E. exact IH.
Qed.

(** C5, as first stated, fails: a predictive field that the
    observation lacks is not given the value 0.  Without a torque
    reading the feature view has no torque column at all. *)
Lemma missing_field_not_defaulted :
  lookup Sample.observation_without_torque "Torque [Nm]" = None
  /\ lookup (build_single_row_feature_df Sample.observation_without_torque)
       "Torque [Nm]" = None
  /\ lookup (build_single_row_feature_df Sample.observation_without_torque)
       "Torque [Nm]" <> Some (Num 0).
Proof. vm_compute. repeat split. discriminate. Qed.

(** C5, amended.  The feature view is the observation without its
    label columns (Machine failure, TWF, HDF, PWF, OSF, RNF), every
    other field kept with its value and in its place; it is built for
    every observation, without an error.  The value 0 is given only to
    label columns that are missing, which are dropped with the others:
    a field of the observation that is missing stays missing. *)
Theorem feature_view_strips_labels (row : Series) (c : string) :
  build_single_row_feature_df row
  = filter (fun kv => negb (contains FAILURE_COLS (fst kv))) row
  /\ lookup (build_single_row_feature_df row) c
     = (if contains FAILURE_COLS c then None else lookup row c).
Proof.
  split.
  - apply build_is_drop.
  - rewrite build_is_drop. apply lookup_drop.
Qed.

End FeatureFacts.

(** ** The realtime orchestrator *)

Module OrchestratorFacts.

Import config features realtime_loop.
Local Open Scope string_scope.

Section WithCollaborators.

Context `{RT : Runtime} `{AD : Adapters}.

Lemma bind_call {S A B} (r : result A) (k : A -> M S B) (s : S) :
  bind (call r) k s
  = match r with
    | inl e => (inl e, s)
    | inr a => k a s
    end.
Proof. destruct r; reflexivity. Qed.

Lemma item0_inr {A} (a : list A) (x : A) :
  np.item0 a = inr x -> exists rest, a = x :: rest.
Proof.
  destruct a as [|y rest]; simpl; intros E; [discriminate |].
  injection E as ->. now exists rest.
Qed.

Lemma item0_inl {A} (a : list A) e :
  np.item0 a = inl e -> read_raises e.
Proof.
  destruct a; simpl; intros E; [| discriminate].
  injection E as <-. now left.
Qed.

Lemma max_inl (a : list Q) e : np.max a = inl e -> read_raises e.
Proof.
  destruct a; simpl; intros E; [| discriminate].
  injection E as <-. now right.
Qed.

(** Takes one step of [process_row]: the next call either raises,
    which ends the run, or returns. *)
Ltac next_call H :=
  rewrite bind_call in H;
  match type of H with
  | context [match ?r with inl _ => _ | inr _ => _ end] =>
      let E := fresh "Ecall" in
      destruct r eqn:E
  end.

(** A run that raises leaves the orchestrator as it was, and the
    exception is the one an adapter raised, or comes from reading an
    adapter's answer. *)
Lemma process_row_failure now row idx self e self' :
  process_row now row idx self = (inl e, self') ->
  self' = self
  /\ (adapter_raises self (build_single_row_feature_df row) e
      \/ read_raises e).
Proof.
  unfold process_row. cbv zeta. intros H.
  repeat
    (next_call H;
     [ injection H as <- <-; split; [reflexivity |];
       first [ left; unfold adapter_raises; tauto
             | right; eauto using @item0_inl, max_inl ]
     | ]).
  discriminate H.
Qed.

(** A run that returns has had an answer from every adapter, and has
    appended the returned record to the buffer. *)
Lemma process_row_success now row idx self out self' :
  process_row now row idx self = (inr out, self') ->
  let X := build_single_row_feature_df row in
  (exists rest,
      compute_anomaly_score (anomaly_model self) X
      = inr (anomaly_score out :: rest))
  /\ (exists rest,
      failure_probability (fault_binary_model self) X
      = inr (failure_proba out :: rest))
  /\ (exists rest,
      predict_failure_mode (fault_multiclass_model self) X
      = inr (failure_mode out :: rest))
  /\ (exists probas,
      predict_failure_mode_proba (fault_multiclass_model self) X
      = inr probas)
  /\ (exists rest,
      predict_rul (rul_model self) X = inr (rul_estimate out :: rest))
  /\ (exists rest,
      predict_energy (energy_model self) X
      = inr (energy_estimate out :: rest))
  /\ anomaly_flag out = Py.ge (anomaly_score out) ANOMALY_SCORE_THRESHOLD
  /\ failure_flag out = Py.ge (failure_proba out) FAILURE_PROBA_THRESHOLD
  /\ buffer self' = buffer.append (buffer self) out.
Proof.
  unfold process_row. cbv zeta. intros H.
  repeat (next_call H; [discriminate H |]).
  unfold bind, buffer_append, modify, ret in H.
  injection H as <- <-. simpl.
  repeat match goal with
  | E : np.item0 _ = inr _ |- _ =>
      apply item0_inr in E; destruct E as [? ->]
  end.
  repeat split; eauto.
Qed.

(** When an adapter call raises, so does the run, and the orchestrator
    stays as it was. *)
Lemma adapter_failure_fails_run now row idx self e0 :
  adapter_raises self (build_single_row_feature_df row) e0 ->
  exists e,
    process_row now row idx self = (inl e, self)
    /\ (adapter_raises self (build_single_row_feature_df row) e
        \/ read_raises e).
Proof.
  intros Hraise.
  destruct (process_row now row idx self) as [[e | out] self'] eqn:Erun.
  - destruct (process_row_failure _ _ _ _ _ _ Erun) as [-> He].
    exists e. split; [reflexivity | exact He].
  - exfalso.
    destruct (process_row_success _ _ _ _ _ _ Erun)
      as ([? E1] & [? E2] & [? E3] & [? E4] & [? E5] & [? E6] & _).
    unfold adapter_raises in Hraise.
    rewrite E1, E2, E3, E4, E5, E6 in Hraise.
    repeat destruct Hraise as [Hraise | Hraise]; discriminate Hraise.
Qed.

End WithCollaborators.

Section AllOrNothing.

Context `{RT : Runtime} `{AD : Adapters}.

(** C4, amended.  A run of [process_row] either raises and leaves
    the buffer as it was, or returns a record and appends exactly
    that record.  It returns only when no adapter call raises; when
    it raises, the exception is the very one an adapter raised (or
    the one raised by reading an empty answer): it is not wrapped
    and names no adapter. *)
Theorem process_row_all_or_nothing now row idx self :
  let X := build_single_row_feature_df row in
  match process_row now row idx self with
  | (inl e, self') =>
      self' = self /\ (adapter_raises self X e \/ read_raises e)
  | (inr out, self') =>
      (forall e, ~ adapter_raises self X e)
      /\ buffer self' = buffer.append (buffer self) out
  end.
Proof.
  intros X.
  destruct (process_row now row idx self) as [[e | out] self'] eqn:Erun.
  - apply (process_row_failure _ _ _ _ _ _ Erun).
  - destruct (process_row_success _ _ _ _ _ _ Erun)
      as ([? E1] & [? E2] & [? E3] & [? E4] & [? E5] & [? E6] & _ & _ & Hb).
    split; [| exact Hb].
    intros e Hraise. unfold adapter_raises in Hraise. fold X in Hraise.
    fold X in E1, E2, E3, E4, E5, E6.
    rewrite E1, E2, E3, E4, E5, E6 in Hraise.
    repeat destruct Hraise as [Hraise | Hraise]; discriminate Hraise.
Qed.

(** C10. In the record of a run that returns, the anomaly flag is
    set exactly when the anomaly score reaches the anomaly-score
    threshold and the failure flag exactly when the failure
    probability reaches the failure-probability threshold; the scores
    are the adapters' answers for the row, and the record with these
    flags is the one appended to the buffer. *)
Theorem flags_derived_from_scores now row idx self out self' :
  process_row now row idx self = (inr out, self') ->
  let X := build_single_row_feature_df row in
  (anomaly_flag out = true <-> ANOMALY_SCORE_THRESHOLD <= anomaly_score out)
  /\ (failure_flag out = true
      <-> FAILURE_PROBA_THRESHOLD <= failure_proba out)
  /\ (exists rest,
      compute_anomaly_score (anomaly_model self) X
      = inr (anomaly_score out :: rest))
  /\ (exists rest,
      failure_probability (fault_binary_model self) X
      = inr (failure_proba out :: rest))
  /\ buffer self' = buffer.append (buffer self) out.
Proof.
  intros Erun X.
  destruct (process_row_success _ _ _ _ _ _ Erun)
    as (E1 & E2 & _ & _ & _ & _ & Ha & Hf & Hb).
  rewrite Ha, Hf, !PyFacts.ge_true.
  repeat split; auto.
Qed.

End AllOrNothing.

(** *** The orchestrator on concrete inputs *)

Import Sample.

(** A healthy line, anomaly flagged: the record says investigate and
    is the one record in the buffer afterwards. *)
Example healthy_row_recorded :
  exists out self',
    run_row 7 observation 0 healthy_line = (inr out, self')
    /\ maintenance_action out = "investigate"
    /\ maintenance_priority out = 3%Z
    /\ anomaly_flag out = true
    /\ failure_flag out = false
    /\ buffer.all (buffer self') = [out].
Proof. do 2 eexists. vm_compute. repeat split. Qed.

(** C4, as first stated, fails: when the remaining-life model raises,
    the run raises that model's own exception, a NotFittedError, and
    not a ModelInferenceError naming the adapter.  The buffer is left
    as it was. *)
Lemma adapter_error_not_wrapped :
  predict_rul (rul_model broken_line)
    (build_single_row_feature_df observation) = inl NotFitted
  /\ run_row 7 observation 0 broken_line = (inl NotFitted, broken_line)
  /\ exc_class NotFitted <> "ModelInferenceError".
Proof. vm_compute. repeat split. discriminate. Qed.

Lemma flags_derived_from_scores_witness :
  exists out self',
    run_row 7 observation 0 healthy_line = (inr out, self')
    /\ (anomaly_flag out = true
        <-> ANOMALY_SCORE_THRESHOLD <= anomaly_score out)
    /\ (failure_flag out = true
        <-> FAILURE_PROBA_THRESHOLD <= failure_proba out).
Proof.
  destruct (run_row 7 observation 0 healthy_line) as [[e | out] self']
    eqn:Erun; [vm_compute in Erun; discriminate Erun |].
  exists out, self'. split; [reflexivity |].
  destruct (flags_derived_from_scores (RT := minutes_runtime)
              (AD := canned_adapters) 7 observation 0 healthy_line
              out self' Erun) as (Ha & Hf & _).
  split; assumption.
Defined.

End OrchestratorFacts.

(** ** The regions of the policy *)

Module PolicyRegions.

Import config optimization_model Policy Regions PolicyFacts.
Local Open Scope string_scope.

Section WithRuntime.

Context `{RT : Runtime}.

Lemma first_match_region p mode rul flag r :
  first_match (holds p mode rul flag) evaluation_order r ->
  region p mode rul flag r.
Proof.
  intros (earlier & later & Heq & Hnot & Hyes).
  unfold evaluation_order in Heq.
  repeat
    (destruct earlier as [|? earlier];
     [ simpl in Heq; injection Heq as <- _
     | simpl in Heq; injection Heq as <- Heq;
       apply Forall_cons_iff in Hnot; destruct Hnot as [? Hnot] ]);
    try (destruct earlier; discriminate Heq);
    unfold holds, FAILURE_PROBA_THRESHOLD in *;
    unfold region, investigates;
    repeat split; try tauto; try lra.
  all: destruct (Qlt_le_dec 0.5 p); [right | left]; lra.
Qed.

(** The decision with the rule it took, the region of that rule, and
    what the rule assigned. *)
Lemma decision_region now p mode rul score flag ct :
  let d := optimize_maintenance_decision now p mode rul score flag ct in
  exists r c,
    region p mode rul flag r
    /\ branch p mode rul score flag (reference_time now ct) r c
         (scheduled_time d)
    /\ action d = outcome r
    /\ confidence d = Py.min c 1.0.
Proof.
  intros d.
  destruct (decision_tree_branch now p mode rul score flag ct)
    as (r & c & Hfirst & Hrest).
  exists r, c. split; [apply first_match_region, Hfirst | exact Hrest].
Qed.

(** X1. Each action is returned on exactly one region of the inputs:
    investigate when the anomaly flag is raised with mode NORMAL;
    otherwise critical when p > 0.7 or rul < 30, urgent when
    0.5 < p <= 0.7 and 30 <= rul < 60, monitor when 0.35 < p <= 0.7 and
    rul >= 120, normal when p <= 0.35 and rul >= 60, and schedule soon on
    what is left. *)
Theorem action_regions now p mode rul score flag ct :
  let d := optimize_maintenance_decision now p mode rul score flag ct in
  (action d = INVESTIGATE <-> flag = true /\ mode = "NORMAL")
  /\ (action d = CRITICAL_IMMEDIATE
      <-> ~ (flag = true /\ mode = "NORMAL") /\ (0.7 < p \/ rul < 30))
  /\ (action d = SCHEDULE_URGENT
      <-> ~ (flag = true /\ mode = "NORMAL")
          /\ 0.5 < p <= 0.7 /\ 30 <= rul < 60)
  /\ (action d = SCHEDULE_SOON
      <-> ~ (flag = true /\ mode = "NORMAL")
          /\ p <= 0.7 /\ 30 <= rul
          /\ ((0.35 < p /\ rul < 120 /\ (p <= 0.5 \/ 60 <= rul))
              \/ (p <= 0.35 /\ rul < 60)))
  /\ (action d = MONITOR
      <-> ~ (flag = true /\ mode = "NORMAL")
          /\ 0.35 < p <= 0.7 /\ 120 <= rul)
  /\ (action d = NORMAL
      <-> ~ (flag = true /\ mode = "NORMAL") /\ p <= 0.35 /\ 60 <= rul).
Proof.
  intros d.
  destruct (decision_region now p mode rul score flag ct)
    as (r & c & Hreg & _ & Hact & _).
  fold d in Hact. rewrite Hact. clear Hact d.
  destruct r; simpl in Hreg; unfold investigates in Hreg; simpl;
    repeat apply conj; intros H; try discriminate H; try reflexivity;
    try tauto; try (repeat split; lra); try (exfalso; intuition lra);
    intuition lra.
Qed.

(** X2. The confidence of a decision never exceeds 1, whatever the
    inputs are. *)
Theorem confidence_at_most_one now p mode rul score flag ct :
  confidence (optimize_maintenance_decision now p mode rul score flag ct)
  <= 1.
Proof.
  destruct (decision_region now p mode rul score flag ct)
    as (r & c & _ & _ & _ & Hc).
  rewrite Hc.
  destruct (PyFacts.min_cases c 1.0) as [[H ->] | [H ->]]; lra.
Qed.

(** X4. An urgent job is scheduled between 30 and 40 minutes ahead: the
    rule is taken with 30 <= rul < 60 only, so the cap of 240 minutes
    never applies.  A job scheduled soon on probability is 60 to 100
    minutes ahead, one scheduled on low remaining life 30 to 40. *)
Theorem scheduled_delay_bounds now p mode rul score flag ct :
  let d := optimize_maintenance_decision now p mode rul score flag ct in
  let t := reference_time now ct in
  match action d with
  | SCHEDULE_URGENT =>
      exists delay,
        scheduled_time d = Some (datetime_add t (timedelta_minutes delay))
        /\ 30 <= delay < 40
  | SCHEDULE_SOON =>
      exists delay,
        scheduled_time d = Some (datetime_add t (timedelta_minutes delay))
        /\ (if Qlt_le_dec FAILURE_PROBA_THRESHOLD p
            then 60 <= delay < 100
            else 30 <= delay < 40)
  | _ => True
  end.
Proof.
  intros d t.
  destruct (decision_region now p mode rul score flag ct)
    as (r & c & Hreg & Hbr & Hact & _).
  fold d t in Hbr, Hact. rewrite Hact.
  destruct r; simpl in Hreg |- *; try exact I;
    inversion Hbr; subst; eexists; (split; [reflexivity |]);
    unfold RUL_SAFETY_MARGIN, FAILURE_PROBA_THRESHOLD;
    try destruct (Qlt_le_dec 0.35 p); try lra.
  - destruct (PyFacts.min_cases (rul - 20) 240) as [[H1 ->] | [H1 ->]];
      [lra |].
    destruct (PyFacts.max_cases (rul - 20) 30) as [[H2 ->] | [H2 ->]]; lra.
  - destruct (PyFacts.max_cases (rul - 20) 60) as [[H2 ->] | [H2 ->]]; lra.
  - destruct (PyFacts.max_cases (rul - 20) 30) as [[H2 ->] | [H2 ->]]; lra.
Qed.

(** X5. A decision carries no scheduled time exactly when its priority
    rank is 5 or 6, that is, for monitor and normal. *)
Theorem no_schedule_iff_low_priority now p mode rul score flag ct :
  let d := optimize_maintenance_decision now p mode rul score flag ct in
  scheduled_time d = None <-> (5 <= get_maintenance_priority d)%Z.
Proof.
  intros d.
  destruct (decision_region now p mode rul score flag ct)
    as (r & c & _ & Hbr & Hact & _).
  fold d in Hbr, Hact. unfold get_maintenance_priority. rewrite Hact.
  destruct r; inversion Hbr; simpl; apply conj; intros Hx;
    try discriminate Hx; try reflexivity; lia.
Qed.

(** X6. The priority rank lies between 1 and 6, two decisions of the
    same rank have the same action, and the rank is at most 2 exactly for
    critical_immediate and schedule_urgent. *)
Theorem priority_rank_separates_actions (d1 d2 : MaintenanceDecision) :
  (1 <= get_maintenance_priority d1 <= 6)%Z
  /\ (get_maintenance_priority d1 = get_maintenance_priority d2 <->
      action d1 = action d2)
  /\ ((get_maintenance_priority d1 <= 2)%Z <->
      action d1 = CRITICAL_IMMEDIATE \/ action d1 = SCHEDULE_URGENT).
Proof.
  unfold get_maintenance_priority.
  destruct (action d1), (action d2); simpl;
    repeat apply conj; try lia; intros Hx;
    try lia; try discriminate Hx; try reflexivity; try tauto;
    destruct Hx as [Hx | Hx]; discriminate Hx.
Qed.

(** X7. The expected cost of a decision is at most 3500, whatever the
    inputs are: 2500 at most for a scheduled repair, and monitor and
    normal are returned for p <= 0.7 only. *)
Theorem expected_cost_at_most_3500 now p mode rul score flag ct :
  expected_cost (optimize_maintenance_decision now p mode rul score flag ct)
  <= 3500.
Proof.
  rewrite expected_cost_eq.
  destruct (decision_region now p mode rul score flag ct)
    as (r & c & Hreg & _ & Hact & _).
  rewrite Hact.
  destruct r; simpl in Hreg |- *;
    unfold MAINTENANCE_COST, DOWNTIME_COST_PER_HOUR, FAILURE_COST; lra.
Qed.

(** X3. For a failure probability in [0,1] the confidence is negative
    in one case only: the investigate rule with a negative anomaly
    score.  Everywhere else it lies in [0,1]. *)
Theorem confidence_negative_iff now p mode rul score flag ct :
  0 <= p <= 1 ->
  let d := optimize_maintenance_decision now p mode rul score flag ct in
  (confidence d < 0 <-> flag = true /\ mode = "NORMAL" /\ score < 0)
  /\ (~ (flag = true /\ mode = "NORMAL" /\ score < 0) ->
      0 <= confidence d <= 1).
Proof.
  intros Hp d.
  assert (Hneg : confidence d < 0
                 <-> flag = true /\ mode = "NORMAL" /\ score < 0);
    [| split;
       [ exact Hneg
       | intros Hn; split;
         [ apply Qnot_lt_le; intros Hlt; apply Hn, Hneg, Hlt
         | apply confidence_at_most_one ] ] ].
  destruct (decision_region now p mode rul score flag ct)
    as (r & c & Hreg & Hbr & _ & Hc).
  fold d in Hc. rewrite Hc. clear Hc.
  destruct (PyFacts.min_cases c 1.0) as [[H1 ->] | [H1 ->]];
    destruct r; simpl in Hreg; unfold investigates in Hreg;
    inversion Hbr; subst; clear Hbr;
    try (destruct (PyFacts.min_cases score 0.95) as [[Hm E] | [Hm E]];
         rewrite E in *);
    try (destruct (PyFacts.max_cases p (1.0 - rul / 30.0))
           as [[Hm E] | [Hm E]]; rewrite E in *);
    apply conj; intros Hx; try tauto; try lra;
    try (exfalso; intuition lra); intuition lra.
Qed.

End WithRuntime.

Lemma confidence_negative_iff_witness :
  0 <= confidence (Sample.decide_at 0 0.2 "NORMAL" 150 0.8 true (Some 7)) <= 1.
Proof.
  apply (confidence_negative_iff (RT := Sample.minutes_runtime)
           0 0.2 "NORMAL" 150 0.8 true (Some 7)).
  - split; unfold Qle; simpl; lia.
  - intros (_ & _ & Hneg). vm_compute in Hneg. discriminate Hneg.
Defined.

End PolicyRegions.

(** ** Reading the history buffer *)

Module BufferQueries.

Import buffer BufferFacts.

Section WithRecords.

Context {A : Type}.
Implicit Types (b : InMemoryBuffer A) (items : list A) (x : A).

Lemma skipn_last_one (l : list A) x :
  skipn (List.length (l ++ [x]) - 1) (l ++ [x]) = [x].
Proof.
  rewrite length_app. simpl List.length.
  replace (List.length l + 1 - 1)%nat with (List.length l) by lia.
  rewrite skipn_app, skipn_all, Nat.sub_diag. reflexivity.
Qed.

(** X8. [latest(n)] returns the most recent min(n, size) records, in
    the order of the buffer: the buffer is some older records followed by
    them.  For n <= 0 it returns nothing. *)
Theorem latest_is_recent_suffix b (n : Z) :
  (exists older, all b = older ++ latest b n)
  /\ List.length (latest b n) = Nat.min (Z.to_nat n) (len b)
  /\ ((n <= 0)%Z -> latest b n = []).
Proof.
  unfold latest, all, len.
  destruct (Z.leb_spec n 0) as [Hn | Hn].
  - repeat split.
    + exists (_data b). now rewrite app_nil_r.
    + simpl. lia.
  - repeat split.
    + exists (firstn (List.length (_data b) - Z.to_nat n) (_data b)).
      now rewrite firstn_skipn.
    + rewrite length_skipn. lia.
    + lia.
Qed.

(** X9. On a buffer within its capacity, the record just appended is
    the one [latest(1)] returns, unless the capacity is 0: then the
    record is dropped at once and the buffer stays empty. *)
Theorem append_then_latest b x :
  (len b <= maxlen b)%nat ->
  latest (append b x) 1 = (if (maxlen b =? 0)%nat then [] else [x])
  /\ len (append b x) = Nat.min (len b + 1) (maxlen b).
Proof.
  unfold len. intros Hb.
  unfold latest, append. simpl _data. simpl (1 <=? 0)%Z.
  rewrite (deque_append_keeps_last _ _ _ Hb).
  set (k := (List.length (_data b ++ [x]) - maxlen b)%nat).
  assert (Hlen : List.length (_data b ++ [x]) = (List.length (_data b) + 1)%nat)
    by (rewrite length_app; reflexivity).
  split; [| rewrite length_skipn; lia].
  destruct (Nat.eqb_spec (maxlen b) 0) as [H0 | H0].
  - replace (skipn k (_data b ++ [x])) with (@nil A)
      by (symmetry; apply skipn_all2; unfold k; lia).
    reflexivity.
  - assert (Hk : (k <= List.length (_data b))%nat) by (unfold k; lia).
    rewrite (skipn_app k).
    replace (k - List.length (_data b))%nat with 0%nat by lia.
    simpl (skipn 0 [x]).
    apply skipn_last_one.
Qed.

(** X10. After any run of appends to a fresh buffer of capacity [N],
    [latest(n)] with n > 0 returns the last min(n, N) records appended
    (all of them when fewer were appended), in order. *)
Theorem latest_after_appends (N : nat) items (n : Z) :
  (0 < n)%Z ->
  latest (append_all (init N) items) n
  = skipn (List.length items - Nat.min (Z.to_nat n) N) items.
Proof.
  intros Hn. unfold latest.
  destruct (Z.leb_spec n 0) as [Hle | _]; [lia |].
  rewrite append_all_keeps_last by (simpl; lia).
  simpl _data. simpl maxlen. simpl app.
  rewrite length_skipn, skipn_skipn. f_equal. lia.
Qed.

End WithRecords.

Lemma append_then_latest_witness :
  latest (append (append_all (init 2) [10; 20; 30]%nat) 40%nat) 1 = [40%nat].
Proof.
  apply (append_then_latest (append_all (init 2) [10; 20; 30]%nat) 40%nat).
  vm_compute. lia.
Defined.

Lemma latest_after_appends_witness :
  latest (append_all (init 3) [0; 1; 2; 3; 4]%nat) 2 = [3; 4]%nat.
Proof.
  apply (latest_after_appends 3 [0; 1; 2; 3; 4]%nat 2). lia.
Defined.

Lemma latest_is_recent_suffix_witness :
  latest (append_all (init 3) [0; 1; 2; 3; 4]%nat) (-1) = [].
Proof.
  apply (latest_is_recent_suffix
           (append_all (init 3) [0; 1; 2; 3; 4]%nat) (-1)).
  lia.
Defined.

End BufferQueries.

(** ** The failure mode label *)

Module EtlFacts.

Import features etl Flags.
Local Open Scope string_scope.

Lemma find_is_head_of_filter {A} (f : A -> bool) (l : list A) :
  find f l = hd_error (filter f l).
Proof.
  induction l as [|a l IH]; simpl; [reflexivity |].
  destruct (f a); [reflexivity | exact IH].
Qed.

(** The comprehension raises on the first column that is missing, and
    otherwise keeps the columns whose flag is 1. *)
Lemma active_flags_spec (row : Series) (cols : list string) :
  active_flags row cols
  = match find (missing row) cols with
    | Some c => inl (KeyError c)
    | None => inr (filter (flag_set row) cols)
    end.
Proof.
  induction cols as [|c cols IH]; simpl; [reflexivity |].
  unfold getitem, missing, flag_set in *.
  destruct (lookup row c) as [v |]; [| reflexivity].
  rewrite IH.
  destruct (find _ cols); reflexivity.
Qed.

Lemma infer_failure_mode_spec (row : Series) :
  infer_failure_mode row
  = match lookup row "Machine failure" with
    | None => inl (KeyError "Machine failure")
    | Some machine_failure =>
        if eq_number machine_failure 0 then inr "NORMAL"
        else
          match find (missing row) FAILURE_SUBCOLS with
          | Some c => inl (KeyError c)
          | None =>
              match find (flag_set row) FAILURE_SUBCOLS with
              | Some c => inr c
              | None => inr "NORMAL"
              end
          end
    end.
Proof.
  unfold infer_failure_mode, getitem.
  destruct (lookup row "Machine failure") as [mf |]; [| reflexivity].
  destruct (eq_number mf 0); [reflexivity |].
  rewrite active_flags_spec.
  destruct (find (missing row) FAILURE_SUBCOLS); [reflexivity |].
  rewrite find_is_head_of_filter.
  destruct (filter (flag_set row) FAILURE_SUBCOLS) as [|a [|b l]];
    reflexivity.
Qed.

(** X11. The label [infer_failure_mode] returns is always one of NORMAL,
    TWF, HDF, PWF, OSF and RNF. *)
Theorem infer_failure_mode_closed_labels (row : Series) (mode : string) :
  infer_failure_mode row = inr mode ->
  In mode ("NORMAL" :: FAILURE_SUBCOLS).
Proof.
  rewrite infer_failure_mode_spec.
  destruct (lookup row "Machine failure") as [mf |]; [| discriminate].
  destruct (eq_number mf 0).
  { intros [= <-]. now left. }
  destruct (find (missing row) FAILURE_SUBCOLS); [discriminate |].
  destruct (find (flag_set row) FAILURE_SUBCOLS) as [c |] eqn:E.
  - intros [= <-]. right. apply (find_some _ _ E).
  - intros [= <-]. now left.
Qed.

(** X12. When it returns, the label is NORMAL if the machine did not
    fail, and otherwise the first of TWF, HDF, PWF, OSF, RNF whose flag
    is 1: with several flags set the earlier one wins, and with none set
    the label is NORMAL again. *)
Theorem infer_failure_mode_first_active (row : Series) (mode : string) :
  infer_failure_mode row = inr mode ->
  exists machine_failure,
    lookup row "Machine failure" = Some machine_failure
    /\ mode
       = (if eq_number machine_failure 0 then "NORMAL"
          else match find (flag_set row) FAILURE_SUBCOLS with
               | Some c => c
               | None => "NORMAL"
               end).
Proof.
  rewrite infer_failure_mode_spec.
  destruct (lookup row "Machine failure") as [mf |]; [| discriminate].
  intros H. exists mf. split; [reflexivity |].
  destruct (eq_number mf 0); [now injection H |].
  destruct (find (missing row) FAILURE_SUBCOLS); [discriminate |].
  destruct (find (flag_set row) FAILURE_SUBCOLS); now injection H.
Qed.

(** X13. [infer_failure_mode] raises a KeyError exactly in two cases:
    the row has no Machine failure column; or the machine failed and one
    of the five flag columns is missing, and then the error names the
    first missing one, even when an earlier flag is set.  A row whose
    Machine failure is 0 needs no flag column at all. *)
Theorem infer_failure_mode_key_errors (row : Series) :
  match lookup row "Machine failure" with
  | None => infer_failure_mode row = inl (KeyError "Machine failure")
  | Some machine_failure =>
      if eq_number machine_failure 0
      then infer_failure_mode row = inr "NORMAL"
      else
        match find (missing row) FAILURE_SUBCOLS with
        | Some c => infer_failure_mode row = inl (KeyError c)
        | None => exists mode, infer_failure_mode row = inr mode
        end
  end.
Proof.
  rewrite infer_failure_mode_spec.
  destruct (lookup row "Machine failure") as [mf |]; [| reflexivity].
  destruct (eq_number mf 0); [reflexivity |].
  destruct (find (missing row) FAILURE_SUBCOLS); [reflexivity |].
  destruct (find (flag_set row) FAILURE_SUBCOLS); eexists; reflexivity.
Qed.

(** A failed machine with the wear and the overstrain flags set: the
    wear flag comes first. *)
Example two_flags_set :
  infer_failure_mode
    [("Machine failure", Num 1); ("TWF", Num 1); ("HDF", Num 0);
     ("PWF", Num 0); ("OSF", Num 1); ("RNF", Num 0)]
  = inr "TWF".
Proof. reflexivity. Qed.

(** A failed machine with the wear flag set and no RNF column: the
    missing column is reported, not the wear failure. *)
Example flag_set_but_column_missing :
  infer_failure_mode
    [("Machine failure", Num 1); ("TWF", Num 1); ("HDF", Num 0);
     ("PWF", Num 0); ("OSF", Num 0)]
  = inl (KeyError "RNF").
Proof. reflexivity. Qed.

Lemma infer_failure_mode_closed_labels_witness :
  In "HDF" ("NORMAL" :: FAILURE_SUBCOLS).
Proof.
  apply (infer_failure_mode_closed_labels
           [("Machine failure", Num 1); ("TWF", Num 0); ("HDF", Num 1);
            ("PWF", Num 0); ("OSF", Num 0); ("RNF", Num 0)] "HDF").
  reflexivity.
Defined.

Lemma infer_failure_mode_first_active_witness :
  exists machine_failure,
    lookup [("Machine failure", Num 1); ("TWF", Num 0); ("HDF", Num 1);
            ("PWF", Num 0); ("OSF", Num 1); ("RNF", Num 0)]
      "Machine failure" = Some machine_failure.
Proof.
  destruct (infer_failure_mode_first_active
              [("Machine failure", Num 1); ("TWF", Num 0); ("HDF", Num 1);
               ("PWF", Num 0); ("OSF", Num 1); ("RNF", Num 0)] "HDF")
    as (mf & Hmf & _).
  - reflexivity.
  - exists mf. exact Hmf.
Defined.

End EtlFacts.

(** ** The feature columns *)

Module FeatureColumns.

Import features.
Local Open Scope string_scope.

Lemma contains_In (labels : list string) (c : string) :
  contains labels c = true <-> In c labels.
Proof.
  unfold contains. rewrite existsb_exists. split.
  - intros (x & Hx & E). apply String.eqb_eq in E. now subst.
  - intros H. exists c. split; [exact H | apply String.eqb_refl].
Qed.

Lemma contains_false (labels : list string) (c : string) :
  contains labels c = false <-> ~ In c labels.
Proof.
  rewrite <- contains_In. now destruct (contains labels c).
Qed.

Lemma frame_columns_drop (df : Frame) (labels : list string) :
  frame_columns (frame_drop df labels)
  = filter (fun c => negb (contains labels c)) (frame_columns df).
Proof.
  unfold frame_columns, frame_drop.
  induction df as [|[k v] df IH]; simpl; [reflexivity |].
  destruct (contains labels k); simpl; now rewrite IH.
Qed.

Lemma columns_drop (df : DataFrame) (labels : list string) :
  columns (drop df labels)
  = filter (fun c => negb (contains labels c)) (columns df).
Proof.
  unfold columns, drop.
  induction df as [|[k v] df IH]; simpl; [reflexivity |].
  destruct (contains labels k); simpl; now rewrite IH.
Qed.

Lemma filter_split_length {A} (f : A -> bool) (l : list A) :
  (List.length (filter (fun a => negb (f a)) l)
   + List.length (filter f l) = List.length l)%nat.
Proof.
  induction l as [|a l IH]; simpl; [reflexivity |].
  destruct (f a); simpl; lia.
Qed.

(** X14. [get_feature_columns] drops the six label columns and files
    every remaining column once: under the categorical columns when it is
    Type, under the numeric columns otherwise, whatever it holds.  The
    order of the frame is kept. *)
Theorem get_feature_columns_partition (df : Frame) (c : string) :
  let '(X, num_cols, cat_cols) := get_feature_columns df in
  frame_columns X
  = filter (fun c => negb (contains FAILURE_COLS c)) (frame_columns df)
  /\ (In c cat_cols <-> In c (frame_columns df) /\ c = "Type")
  /\ (In c num_cols
      <-> In c (frame_columns df) /\ ~ In c FAILURE_COLS /\ c <> "Type")
  /\ (List.length num_cols + List.length cat_cols
      = List.length (frame_columns X))%nat.
Proof.
  unfold get_feature_columns.
  set (X := frame_drop df FAILURE_COLS).
  set (cat_cols := filter (fun c => contains CAT_COLS c) (frame_columns X)).
  assert (HX : frame_columns X
               = filter (fun c => negb (contains FAILURE_COLS c))
                   (frame_columns df)) by apply frame_columns_drop.
  assert (Hin : forall c, In c (frame_columns X)
                <-> In c (frame_columns df) /\ ~ In c FAILURE_COLS).
  { intros c0. rewrite HX, filter_In, negb_true_iff, contains_false.
    reflexivity. }
  assert (Hcat : forall c, In c cat_cols
                 <-> In c (frame_columns df) /\ c = "Type").
  { intros c0. unfold cat_cols. rewrite filter_In, Hin, contains_In.
    unfold CAT_COLS. simpl. split.
    - intros ((Hc & _) & [<- | []]). now split.
    - intros (Hc & ->). repeat split; auto.
      intros Hbad. simpl in Hbad.
      repeat destruct Hbad as [Hbad | Hbad]; discriminate || contradiction. }
  split; [exact HX | split; [apply Hcat | split]].
  - rewrite filter_In, Hin, negb_true_iff, contains_false, Hcat. tauto.
  - rewrite (filter_ext_in
               (fun c => negb (contains cat_cols c))
               (fun c => negb (contains CAT_COLS c))).
    + unfold cat_cols. apply filter_split_length.
    + intros a Ha. f_equal.
      destruct (contains CAT_COLS a) eqn:E.
      * apply contains_In. unfold cat_cols.
        apply filter_In. now split.
      * apply contains_false. unfold cat_cols.
        rewrite filter_In, E. intros [_ Hbad]. discriminate Hbad.
Qed.

(** X15. Serving and training agree on the features: for a row with
    the columns of a frame, the feature view built for scoring has
    exactly the columns, in the same order, of the feature frame
    [get_feature_columns] hands to training. *)
Theorem serving_columns_match_training (row : Series) (df : Frame) :
  columns row = frame_columns df ->
  columns (build_single_row_feature_df row)
  = frame_columns (fst (fst (get_feature_columns df))).
Proof.
  intros Hcols.
  rewrite FeatureFacts.build_is_drop, columns_drop, Hcols.
  unfold get_feature_columns. simpl fst.
  symmetry. apply frame_columns_drop.
Qed.

Lemma serving_columns_match_training_witness :
  columns (build_single_row_feature_df Sample.observation)
  = frame_columns
      (fst (fst (get_feature_columns
                   (map (fun kv => (fst kv, [snd kv])) Sample.observation)))).
Proof.
  apply (serving_columns_match_training Sample.observation
           (map (fun kv => (fst kv, [snd kv])) Sample.observation)).
  reflexivity.
Defined.

End FeatureColumns.

(** ** The records of the orchestrator *)

Module OrchestratorRecords.

Import config features realtime_loop Policy Regions.
Local Open Scope string_scope.

Section WithCollaborators.

Context `{RT : Runtime} `{AD : Adapters}.

Ltac next_call H :=
  rewrite OrchestratorFacts.bind_call in H;
  match type of H with
  | context [match ?r with inl _ => _ | inr _ => _ end] =>
      let E := fresh "Ecall" in
      destruct r eqn:E
  end.

(** The record of a run that returns, field by field, and the
    orchestrator it leaves. *)
Lemma process_row_returns now row idx self out self' :
  process_row now row idx self = (inr out, self') ->
  let decision :=
    optimization_model.optimize_maintenance_decision now
      (failure_proba out) (failure_mode out) (rul_estimate out)
      (anomaly_score out) (anomaly_flag out) (Some now) in
  row_index out = idx
  /\ raw_row out = row
  /\ anomaly_flag out = Py.ge (anomaly_score out) ANOMALY_SCORE_THRESHOLD
  /\ failure_flag out = Py.ge (failure_proba out) FAILURE_PROBA_THRESHOLD
  /\ maintenance_action out
     = optimization_model.value (optimization_model.action decision)
  /\ maintenance_priority out
     = optimization_model.get_maintenance_priority decision
  /\ maintenance_reasoning out = optimization_model.reasoning decision
  /\ expected_cost out = optimization_model.expected_cost decision
  /\ scheduled_time out
     = match optimization_model.scheduled_time decision with
       | Some t => Some (isoformat t)
       | None => None
       end
  /\ self'
     = {| anomaly_model := anomaly_model self;
          fault_binary_model := fault_binary_model self;
          fault_multiclass_model := fault_multiclass_model self;
          rul_model := rul_model self;
          energy_model := energy_model self;
          buffer := buffer.append (buffer self) out |}.
Proof.
  unfold process_row. cbv zeta. intros H.
  repeat (next_call H; [discriminate H |]).
  unfold bind, buffer_append, modify, ret in H.
  injection H as <- <-. simpl.
  repeat split; reflexivity.
Qed.

(** X16. In every record the orchestrator returns, the fields agree
    with each other: the index and the row are the ones passed in; the
    priority is at most 2 exactly for the actions critical_immediate and
    schedule_urgent; no time is scheduled exactly for monitor and normal;
    and the action is investigate exactly when the anomaly flag is set
    and the predicted mode is NORMAL. *)
Theorem record_fields_agree now row idx self out self' :
  process_row now row idx self = (inr out, self') ->
  row_index out = idx
  /\ raw_row out = row
  /\ ((maintenance_priority out <= 2)%Z
      <-> maintenance_action out = "critical_immediate"
          \/ maintenance_action out = "schedule_urgent")
  /\ (scheduled_time out = None
      <-> maintenance_action out = "monitor"
          \/ maintenance_action out = "normal")
  /\ (maintenance_action out = "investigate"
      <-> anomaly_flag out = true /\ failure_mode out = "NORMAL").
Proof.
  intros Hrun.
  destruct (process_row_returns _ _ _ _ _ _ Hrun)
    as (Hidx & Hrow & _ & _ & Hact & Hprio & _ & _ & Hsched & _).
  destruct (PolicyRegions.decision_region now
              (failure_proba out) (failure_mode out) (rul_estimate out)
              (anomaly_score out) (anomaly_flag out) (Some now))
    as (r & c & Hreg & Hbr & Ha & _).
  unfold optimization_model.get_maintenance_priority in Hprio.
  rewrite Ha in Hact, Hprio. rewrite Hact, Hprio, Hsched.
  split; [exact Hidx | split; [exact Hrow |]].
  destruct r; simpl in Hreg; unfold investigates in Hreg;
    inversion Hbr; simpl;
    repeat apply conj; intros Hx;
    try discriminate Hx; try reflexivity; try lia; try tauto;
    try (destruct Hx as [Hx | Hx]; discriminate Hx);
    try (left; reflexivity); try (right; reflexivity).
Qed.

(** X17. A run of [process_row], whether it returns or raises, leaves
    the five models and the capacity of the buffer as they were, and a
    buffer within its capacity stays within it. *)
Theorem process_row_keeps_models_and_bound now row idx self r self' :
  process_row now row idx self = (r, self') ->
  anomaly_model self' = anomaly_model self
  /\ fault_binary_model self' = fault_binary_model self
  /\ fault_multiclass_model self' = fault_multiclass_model self
  /\ rul_model self' = rul_model self
  /\ energy_model self' = energy_model self
  /\ buffer.maxlen (buffer self') = buffer.maxlen (buffer self)
  /\ ((buffer.len (buffer self) <= buffer.maxlen (buffer self))%nat ->
      (buffer.len (buffer self') <= buffer.maxlen (buffer self'))%nat).
Proof.
  intros Hrun. destruct r as [e | out].
  - destruct (OrchestratorFacts.process_row_failure _ _ _ _ _ _ Hrun)
      as [-> _].
    repeat split; auto.
  - destruct (process_row_returns _ _ _ _ _ _ Hrun)
      as (_ & _ & _ & _ & _ & _ & _ & _ & _ & ->).
    simpl. repeat split; try reflexivity.
    intros Hb. unfold buffer.len. simpl.
    apply BufferFacts.deque_append_bounded. exact Hb.
Qed.

End WithCollaborators.

Lemma record_fields_agree_witness :
  exists out self',
    Sample.run_row 7 Sample.observation 3 Sample.healthy_line
    = (inr out, self')
    /\ row_index out = 3%Z
    /\ raw_row out = Sample.observation.
Proof.
  destruct (Sample.run_row 7 Sample.observation 3 Sample.healthy_line)
    as [[e | out] self'] eqn:Erun; [vm_compute in Erun; discriminate Erun |].
  exists out, self'. split; [reflexivity |].
  destruct (record_fields_agree (RT := Sample.minutes_runtime)
              (AD := Sample.canned_adapters) 7 Sample.observation 3
              Sample.healthy_line out self' Erun) as (Hidx & Hrow & _).
  split; assumption.
Defined.

Lemma process_row_keeps_models_and_bound_witness :
  exists r self',
    Sample.run_row 7 Sample.observation 3 Sample.broken_line = (r, self')
    /\ rul_model self' = Sample.unfitted.
Proof.
  destruct (Sample.run_row 7 Sample.observation 3 Sample.broken_line)
    as [r self'] eqn:Erun.
  exists r, self'. split; [reflexivity |].
  destruct (process_row_keeps_models_and_bound
              (RT := Sample.minutes_runtime) (AD := Sample.canned_adapters)
              7 Sample.observation 3 Sample.broken_line r self' Erun)
    as (_ & _ & _ & Hrul & _).
  rewrite Hrul. reflexivity.
Defined.

End OrchestratorRecords.

(** ** The stream of observations *)

Module StreamFacts.

Import features stream_simulator.

Section WithFiles.

Context `{FS : Files}.

Lemma skipn_nth_error {A} (l : list A) (n : nat) (x : A) :
  nth_error l n = Some x -> skipn n l = x :: skipn (S n) l.
Proof.
  revert l. induction n as [|n IH]; intros [|a l] H; try discriminate H.
  - injection H as ->. reflexivity.
  - simpl in H. apply (IH l H).
Qed.

Lemma take_one_pass (self : StreamSimulator) (k pos : nat) :
  loop_forever self = false ->
  take self k pos = firstn k (skipn pos (df self)).
Proof.
  intros Hloop. revert pos. induction k as [|k IH]; intros pos.
  - reflexivity.
  - simpl. unfold next. rewrite Hloop.
    destruct (nth_error (df self) pos) as [row |] eqn:E.
    + rewrite (skipn_nth_error _ _ _ E). simpl. now rewrite IH.
    + apply nth_error_None in E. rewrite skipn_all2 by exact E.
      reflexivity.
Qed.

(** X18. A simulator that does not loop yields the rows of its data, in
    order, once: the first [k] items are the first [k] rows, and after
    the last row the iteration ends. *)
Theorem one_pass_yields_rows (self : StreamSimulator) (k : nat) :
  loop_forever self = false ->
  take self k 0 = firstn k (df self)
  /\ next self (List.length (df self)) = Exhausted.
Proof.
  intros Hloop. split.
  - apply (take_one_pass self k 0 Hloop).
  - unfold next. rewrite Hloop.
    now rewrite (proj2 (nth_error_None (df self) _) (Nat.le_refl _)).
Qed.

Lemma next_inside (self : StreamSimulator) (pos : nat) (row : Series) :
  nth_error (df self) pos = Some row -> next self pos = Item row (S pos).
Proof. intros E. unfold next. now rewrite E. Qed.

Lemma next_wraps (self : StreamSimulator) (pos : nat) (row : Series) :
  loop_forever self = true ->
  nth_error (df self) pos = None ->
  nth_error (df self) 0 = Some row ->
  next self pos = Item row 1.
Proof.
  intros Hloop E E0. unfold next. rewrite E, Hloop.
  destruct (df self); [discriminate E0 | now injection E0 as ->].
Qed.

Lemma take_cycles (self : StreamSimulator) (k pos : nat) :
  loop_forever self = true ->
  df self <> [] ->
  (pos <= List.length (df self))%nat ->
  List.length (take self k pos) = k
  /\ forall i, (i < k)%nat ->
       nth_error (take self k pos) i
       = nth_error (df self) ((pos + i) mod List.length (df self)).
Proof.
  intros Hloop Hne.
  assert (Hn : (1 <= List.length (df self))%nat)
    by (destruct (df self); [contradiction | simpl; lia]).
  assert (Hhd : exists row0, nth_error (df self) 0 = Some row0)
    by (destruct (df self) as [|row0 ?]; [contradiction | now exists row0]).
  destruct Hhd as [row0 Hrow0].
  revert pos. induction k as [|k IH]; intros pos Hpos.
  - split; [reflexivity | intros i Hi; lia].
  - cbn [take].
    destruct (nth_error (df self) pos) as [row |] eqn:E.
    + rewrite (next_inside _ _ _ E).
      assert (Hlt : (pos < List.length (df self))%nat)
        by (apply nth_error_Some; congruence).
      destruct (IH (S pos) Hlt) as [Hlen Hnth].
      split; [cbn [List.length]; now rewrite Hlen |].
      intros [|i] Hi; cbn [nth_error].
      * rewrite Nat.add_0_r, Nat.mod_small by exact Hlt. now rewrite E.
      * rewrite Hnth by lia. f_equal. f_equal. lia.
    + rewrite (next_wraps _ _ _ Hloop E Hrow0).
      apply nth_error_None in E.
      assert (Heq : pos = List.length (df self)) by lia.
      destruct (IH 1%nat Hn) as [Hlen Hnth].
      split; [cbn [List.length]; now rewrite Hlen |].
      intros [|i] Hi; cbn [nth_error].
      * rewrite Nat.add_0_r, Heq, Nat.Div0.mod_same. now rewrite Hrow0.
      * rewrite Hnth by lia. f_equal. rewrite Heq.
        replace (List.length (df self) + S i)%nat
          with (1 + i + 1 * List.length (df self))%nat by lia.
        now rewrite Nat.Div0.mod_add.
Qed.

(** X19. A simulator that loops forever over [n] > 0 rows never ends:
    for every [k] it yields [k] items, and item [i] is row [i mod n] of
    its data.  Over no rows at all it never yields and never ends. *)
Theorem looping_stream_cycles (self : StreamSimulator) (k i : nat) :
  loop_forever self = true ->
  (df self = [] -> next self 0 = Spins)
  /\ (df self <> [] ->
      List.length (take self k 0) = k
      /\ ((i < k)%nat ->
          nth_error (take self k 0) i
          = nth_error (df self) (i mod List.length (df self)))).
Proof.
  intros Hloop. split.
  - intros Hempty. unfold next. rewrite Hloop, Hempty. reflexivity.
  - intros Hne.
    destruct (take_cycles self k 0 Hloop Hne (Nat.le_0_l _)) as [Hlen Hnth].
    split; [exact Hlen | intros Hi; apply (Hnth i Hi)].
Qed.

End WithFiles.

Lemma one_pass_yields_rows_witness :
  take SampleStream.one_pass 5 0 = SampleStream.two_rows.
Proof.
  apply (one_pass_yields_rows SampleStream.one_pass 5). reflexivity.
Defined.

Lemma looping_stream_cycles_witness :
  nth_error (take SampleStream.looping 5 0) 4
  = Some Sample.observation.
Proof.
  destruct (looping_stream_cycles SampleStream.looping 5 4 eq_refl)
    as [_ Hcycle].
  destruct Hcycle as [_ Hnth]; [discriminate |].
  rewrite Hnth by lia. reflexivity.
Defined.

End StreamFacts.

(** ** The continuous mode *)

Module RunFacts.

Import features realtime_loop stream_simulator realtime_run.

Section WithCollaborators.

Context `{RT : Runtime} `{AD : Adapters} `{FS : Files}.

Lemma next_exhausted_not_looping (stream : StreamSimulator) (pos : nat) :
  next stream pos = Exhausted -> loop_forever stream = false.
Proof.
  unfold next.
  destruct (nth_error (df stream) pos); [discriminate |].
  destruct (loop_forever stream); [| reflexivity].
  destruct (df stream); discriminate.
Qed.

Lemma next_spins_empty (stream : StreamSimulator) (pos : nat) :
  next stream pos = Spins -> df stream = [].
Proof.
  unfold next.
  destruct (nth_error (df stream) pos); [discriminate |].
  destruct (loop_forever stream); [| discriminate].
  destruct (df stream); [reflexivity | discriminate].
Qed.

(** What [fuel] iterations of the loop do: the records they print are
    the ones they append to the buffer, in the same order; record [i]
    carries the index [idx + i] and the row the stream yields at place
    [i]; and the loop is cut short by an exception only. *)
Lemma loop_spec (clock : Z -> datetime) (stream : StreamSimulator)
    (fuel pos : nat) (idx : Z) (s s' : Process) (r : result Progress) :
  loop clock stream fuel pos idx s = (r, s') ->
  exists outs,
    console s' = console s ++ outs
    /\ buffer (pipeline s')
       = buffer.append_all (buffer (pipeline s)) outs
    /\ (forall i out,
         nth_error outs i = Some out ->
         row_index out = (idx + Z.of_nat i)%Z
         /\ nth_error (take stream fuel pos) i = Some (raw_row out))
    /\ match r with
       | inr Running => List.length outs = fuel
       | inr Returned => loop_forever stream = false
       | inr Waiting => df stream = []
       | inl _ => (List.length outs < fuel)%nat
       end.
Proof.
  revert pos idx s. induction fuel as [|fuel IH]; intros pos idx s Hrun.
  - injection Hrun as <- <-. exists []. rewrite app_nil_r.
    split; [reflexivity | split; [reflexivity | split; [| reflexivity]]].
    intros [|i] out H; discriminate H.
  - cbn [loop take] in Hrun |- *.
    destruct (next stream pos) as [row pos' | |] eqn:Enext.
    + unfold bind, self_process_row in Hrun.
      destruct (process_row (clock idx) row idx (pipeline s))
        as [[e | out] p1] eqn:Erow.
      * injection Hrun as <- <-.
        destruct (OrchestratorFacts.process_row_failure _ _ _ _ _ _ Erow)
          as [-> _].
        exists []. cbn [console pipeline]. rewrite app_nil_r.
        split; [reflexivity | split; [reflexivity | split]].
        -- intros [|i] out H; discriminate H.
        -- cbn [List.length]. lia.
      * unfold print, modify in Hrun. cbn [console pipeline] in Hrun.
        destruct (OrchestratorRecords.process_row_returns _ _ _ _ _ _ Erow)
          as (Hidx & Hrow & _ & _ & _ & _ & _ & _ & _ & Hp1).
        destruct (IH _ _ _ Hrun) as (outs & Hc & Hb & Hrecs & Hr).
        cbn [console pipeline] in Hc, Hb.
        exists (out :: outs).
        split; [rewrite Hc, <- app_assoc; reflexivity |].
        split; [rewrite Hb, Hp1; reflexivity |].
        split.
        -- intros [|i] o Ho.
           ++ injection Ho as <-. cbn [nth_error].
              rewrite Hidx, Hrow. split; [lia | reflexivity].
           ++ cbn [nth_error] in Ho |- *.
              destruct (Hrecs i o Ho) as [Hi Ht]. split; [lia | exact Ht].
        -- destruct r as [e | []]; cbn [List.length]; try exact Hr; lia.
    + injection Hrun as <- <-. exists []. rewrite app_nil_r.
      split; [reflexivity | split; [reflexivity | split]].
      * intros [|i] out H; discriminate H.
      * exact (next_exhausted_not_looping _ _ Enext).
    + injection Hrun as <- <-. exists []. rewrite app_nil_r.
      split; [reflexivity | split; [reflexivity | split]].
      * intros [|i] out H; discriminate H.
      * exact (next_spins_empty _ _ Enext).
Qed.

Lemma init_keeps_loop_forever path sleep looping (stream : StreamSimulator) :
  init path sleep looping = inr stream -> loop_forever stream = looping.
Proof.
  unfold init. destruct (read_csv _); [discriminate |].
  intros [= <-]. reflexivity.
Qed.


(** X21. The continuous mode does not return: after any number of
    iterations it is still running, having printed one record per
    iteration, or it waits on a file without rows, or it was stopped by
    an exception. *)
Theorem run_forever_never_returns (clock : Z -> datetime)
    (fuel : nat) (s s' : Process) (r : result Progress) :
  run_forever clock fuel s = (r, s') ->
  r <> inr Returned
  /\ (r = inr Running ->
      List.length (console s') = (List.length (console s) + fuel)%nat)
  /\ (r = inr Waiting ->
      exists stream,
        init None STREAM_SLEEP_SECONDS true = inr stream
        /\ df stream = []).
Proof.
  unfold run_forever. rewrite OrchestratorFacts.bind_call.
  destruct (init None STREAM_SLEEP_SECONDS true) as [e | stream] eqn:Einit.
  - intros [= <- <-]. repeat split; intros H; discriminate H.
  - intros Hrun.
    destruct (loop_spec _ _ _ _ _ _ _ _ Hrun) as (outs & Hc & _ & _ & Hr).
    assert (Hloop := init_keeps_loop_forever _ _ _ _ Einit).
    split; [| split].
    + intros ->. congruence.
    + intros ->. rewrite Hc, length_app, Hr. reflexivity.
    + intros ->. exists stream. split; [reflexivity | exact Hr].
Qed.

End WithCollaborators.


Lemma run_forever_never_returns_witness :
  exists r s', SampleStream.run_healthy 3 = (r, s') /\ r <> inr Returned.
Proof.
  destruct (SampleStream.run_healthy 3) as [r s'] eqn:Erun.
  exists r, s'. split; [reflexivity |].
  apply (run_forever_never_returns
           (RT := Sample.minutes_runtime) (AD := Sample.canned_adapters)
           (FS := SampleStream.files) _ _ _ _ _ Erun).
Defined.

(** Three iterations over the two rows of the file: the console shows
    the indices 0, 1, 2 and the loop is still running. *)
Example three_iterations :
  exists s',
    SampleStream.run_healthy 3 = (inr Running, s')
    /\ map row_index (console s') = [0; 1; 2]%Z
    /\ map raw_row (console s')
       = [Sample.observation; Sample.observation_without_torque;
          Sample.observation].
Proof. eexists. vm_compute. repeat split. Qed.

End RunFacts.

(** ** The dashboard session *)

Module SessionFacts.

Import features realtime_loop dashboard Session.
Local Open Scope string_scope.

Section WithCollaborators.

Context `{RT : Runtime} `{AD : Adapters} `{FS : Files}.

(** X22. [init_state] never overwrites a key that is present: the
    position in the stream, the pause, the resolved rows and the pipeline
    survive every rerun of the script.  When it returns, all seven keys
    are present, and running it again changes nothing and loads
    nothing. *)
Theorem init_state_keeps_session (new_pipeline : result RealtimePipeline)
    (s s' : SessionState) (r : result unit) :
  init_state new_pipeline s = (r, s') ->
  (forall v, pipeline s = Some v -> pipeline s' = Some v)
  /\ (forall v, stream_df s = Some v -> stream_df s' = Some v)
  /\ (forall v, stream_pos s = Some v -> stream_pos s' = Some v)
  /\ (forall v, auto_run s = Some v -> auto_run s' = Some v)
  /\ (forall v, last_processed s = Some v -> last_processed s' = Some v)
  /\ (forall v, stream_paused s = Some v -> stream_paused s' = Some v)
  /\ (forall v, resolved_critical_rows s = Some v ->
                resolved_critical_rows s' = Some v)
  /\ (r = inr tt ->
      pipeline s' <> None /\ stream_df s' <> None /\ stream_pos s' <> None
      /\ auto_run s' <> None /\ last_processed s' <> None
      /\ stream_paused s' <> None /\ resolved_critical_rows s' <> None
      /\ forall again, init_state again s' = (inr tt, s')).
Proof.
  unfold init_state, bind, setdefault.
  destruct s as [[p |] [d |] [pos |] [a |] [l |] [sp |] [rr |]];
    cbn [pipeline stream_df stream_pos auto_run last_processed
         stream_paused resolved_critical_rows];
    destruct new_pipeline as [e1 | p1];
    destruct (read_csv STREAM_PATH) as [e2 | d2];
    cbn; intros [= <- <-]; cbn;
    repeat apply conj; intros; try assumption; try discriminate;
    repeat apply conj; intros; try discriminate; try reflexivity;
    congruence.
Qed.

Lemma for_rows_spec (clock : Z -> datetime) (pos : Z) (rows : list Series)
    (i : Z) (s s' : SessionState) (r : result unit) (p : RealtimePipeline) :
  pipeline s = Some p ->
  for_rows clock pos rows i s = (r, s') ->
  exists outs p',
    pipeline s' = Some p'
    /\ same_but_pipeline s s'
    /\ processed (pos + i) rows p p' outs
    /\ match r with
       | inr _ => List.length outs = List.length rows
       | inl _ => (List.length outs < List.length rows)%nat
       end.
Proof.
  revert i s p. induction rows as [|row rows IH]; intros i s p Hp Hrun.
  - injection Hrun as <- <-. exists [], p.
    split; [exact Hp | split; [repeat split | split; [split |]]];
      try reflexivity.
    intros [|j] out H; discriminate H.
  - cbn [for_rows] in Hrun. unfold bind, pipeline_process_row in Hrun.
    rewrite Hp in Hrun.
    destruct (process_row (clock (pos + i)%Z) row (pos + i)%Z p)
      as [[e | out] p1] eqn:Erow.
    + injection Hrun as <- <-.
      destruct (OrchestratorFacts.process_row_failure _ _ _ _ _ _ Erow)
        as [-> _].
      exists [], p.
      split; [reflexivity | split; [repeat split | split; [split |]]];
        try reflexivity; [| cbn; lia].
      intros [|j] out H; discriminate H.
    + destruct (OrchestratorRecords.process_row_returns _ _ _ _ _ _ Erow)
        as (Hidx & Hrow & _ & _ & _ & _ & _ & _ & _ & Hp1).
      destruct (IH (i + 1)%Z (set_pipeline p1 s) p1 eq_refl Hrun)
        as (outs & p' & Hp' & Hsame & [Hb Hrecs] & Hr).
      exists (out :: outs), p'.
      split; [exact Hp' |].
      split; [exact Hsame |].
      split; [split |].
      * rewrite Hb, Hp1. reflexivity.
      * intros [|j] o Ho.
        -- injection Ho as <-. cbn [nth_error].
           rewrite Hidx, Hrow. split; [lia | reflexivity].
        -- cbn [nth_error] in Ho |- *.
           destruct (Hrecs j o Ho) as [Hj Ht]. split; [lia | exact Ht].
      * destruct r; cbn [List.length]; lia.
Qed.

(** [df.iloc[pos:end]] for a position inside the data and a batch that
    is not negative: the rows from [pos] on, [batch_size] of them or as
    many as are left. *)
Lemma iloc_batch (df : list Series) (pos batch_size : Z) :
  let n := Z.of_nat (List.length df) in
  (0 <= pos < n)%Z ->
  (0 <= batch_size)%Z ->
  iloc df pos (Z.min (pos + batch_size) n)
  = firstn (Z.to_nat (Z.min batch_size (n - pos))) (skipn (Z.to_nat pos) df).
Proof.
  intros n Hpos Hb. unfold iloc, slice_index. fold n.
  destruct (Z.ltb_spec pos 0) as [Hneg | _]; [lia |].
  destruct (Z.ltb_spec (Z.min (pos + batch_size) n) 0) as [Hneg | _]; [lia |].
  f_equal; [| f_equal]; lia.
Qed.

Lemma iloc_batch_length (df : list Series) (pos batch_size : Z) :
  let n := Z.of_nat (List.length df) in
  (0 <= pos < n)%Z ->
  (0 <= batch_size)%Z ->
  Z.of_nat (List.length (iloc df pos (Z.min (pos + batch_size) n)))
  = Z.min batch_size (n - pos).
Proof.
  intros n Hpos Hb. rewrite iloc_batch by assumption. fold n.
  rewrite length_firstn, length_skipn. unfold n. lia.
Qed.

Lemma iloc_batch_nth (df : list Series) (pos batch_size : Z) j row :
  let n := Z.of_nat (List.length df) in
  (0 <= pos < n)%Z ->
  (0 <= batch_size)%Z ->
  nth_error (iloc df pos (Z.min (pos + batch_size) n)) j = Some row ->
  nth_error df (Z.to_nat pos + j) = Some row.
Proof.
  intros n Hpos Hb. rewrite iloc_batch by assumption. fold n.
  rewrite nth_error_firstn.
  destruct (Nat.ltb j _); [| discriminate].
  now rewrite nth_error_skipn.
Qed.

(** X23. A batch that returns has processed the next
    min(batch_size, rows left) rows, none at the end of the stream: it
    returns that count, advances the position by it and never past the
    end of the data, and the buffer received the records of exactly
    these rows, in order, each under its position in the stream. *)
Theorem process_batch_advances (clock : Z -> datetime) (time_now : Q)
    (batch_size : Z) (s s' : SessionState) (k : Z)
    (df : list Series) (pos : Z) (p : RealtimePipeline) :
  stream_df s = Some df ->
  stream_pos s = Some pos ->
  pipeline s = Some p ->
  (0 <= pos)%Z ->
  (0 <= batch_size)%Z ->
  process_batch clock time_now batch_size s = (inr k, s') ->
  let n := Z.of_nat (List.length df) in
  k = Z.max 0 (Z.min batch_size (n - pos))
  /\ stream_pos s' = Some (pos + k)%Z
  /\ ((pos <= n)%Z -> (pos + k <= n)%Z)
  /\ stream_df s' = Some df
  /\ exists outs p',
       pipeline s' = Some p'
       /\ Z.of_nat (List.length outs) = k
       /\ processed pos (skipn (Z.to_nat pos) df) p p' outs.
Proof.
  intros Hdf Hpos Hp Hpos0 Hb Hrun n.
  unfold process_batch, bind, getkey in Hrun.
  rewrite Hdf, Hpos in Hrun. fold n in Hrun.
  destruct (Z.geb_spec pos n) as [Hend | Hin].
  - injection Hrun as <- <-.
    split; [lia | split; [rewrite Hpos; f_equal; lia | split; [lia |]]].
    split; [exact Hdf |].
    exists [], p.
    split; [exact Hp | split; [reflexivity | split; [reflexivity |]]].
    intros [|j] out H; discriminate H.
  - destruct (for_rows clock pos (iloc df pos (Z.min (pos + batch_size) n)) 0 s)
      as [[e | []] s1] eqn:Erows; [discriminate Hrun |].
    unfold modify, ret in Hrun. injection Hrun as <- <-.
    destruct (for_rows_spec _ _ _ _ _ _ _ _ Hp Erows)
      as (outs & p' & Hp' & Hsame & [Hbuf Hrecs] & Hlen).
    destruct Hsame as (Hdf' & _).
    assert (Hcount := iloc_batch_length df pos batch_size
                        (conj Hpos0 Hin) Hb).
    cbv zeta in Hcount. fold n in Hcount.
    cbn [stream_pos stream_df pipeline set_stream_pos set_last_processed].
    split; [lia | split; [f_equal; lia | split; [lia |]]].
    split; [congruence |].
    exists outs, p'.
    split; [exact Hp' | split; [lia | split; [exact Hbuf |]]].
    intros j out Ho. destruct (Hrecs j out Ho) as [Hj Hrow].
    split; [lia |].
    rewrite nth_error_skipn.
    apply (iloc_batch_nth df pos batch_size j _ (conj Hpos0 Hin) Hb Hrow).
Qed.

(** X24. A batch stopped by an exception leaves the position and the
    time of the last batch as they were, but not the buffer: the records
    of the rows before the failing one stay appended, so the next batch
    processes these rows again. *)
Theorem process_batch_failure_keeps_position (clock : Z -> datetime)
    (time_now : Q) (batch_size : Z) (s s' : SessionState) (e : PyException)
    (df : list Series) (pos : Z) (p : RealtimePipeline) :
  stream_df s = Some df ->
  stream_pos s = Some pos ->
  pipeline s = Some p ->
  (0 <= pos)%Z ->
  (0 <= batch_size)%Z ->
  process_batch clock time_now batch_size s = (inl e, s') ->
  stream_pos s' = Some pos
  /\ last_processed s' = last_processed s
  /\ stream_df s' = Some df
  /\ exists outs p',
       pipeline s' = Some p'
       /\ (Z.of_nat (List.length outs) < batch_size)%Z
       /\ processed pos (skipn (Z.to_nat pos) df) p p' outs.
Proof.
  intros Hdf Hpos Hp Hpos0 Hb Hrun.
  unfold process_batch, bind, getkey in Hrun.
  rewrite Hdf, Hpos in Hrun.
  set (n := Z.of_nat (List.length df)) in *.
  destruct (Z.geb_spec pos n) as [Hend | Hin]; [discriminate Hrun |].
  destruct (for_rows clock pos (iloc df pos (Z.min (pos + batch_size) n)) 0 s)
    as [[e1 | []] s1] eqn:Erows; [| discriminate Hrun].
  injection Hrun as <- <-.
  destruct (for_rows_spec _ _ _ _ _ _ _ _ Hp Erows)
    as (outs & p' & Hp' & Hsame & [Hbuf Hrecs] & Hlen).
  destruct Hsame as (Hdf' & Hpos' & _ & Hlast & _).
  assert (Hcount := iloc_batch_length df pos batch_size
                      (conj Hpos0 Hin) Hb).
  cbv zeta in Hcount. fold n in Hcount.
  split; [congruence | split; [exact Hlast | split; [congruence |]]].
  exists outs, p'.
  split; [exact Hp' | split; [lia | split; [exact Hbuf |]]].
  intros j out Ho. destruct (Hrecs j out Ho) as [Hj Hrow].
  split; [lia |].
  rewrite nth_error_skipn.
  apply (iloc_batch_nth df pos batch_size j _ (conj Hpos0 Hin) Hb Hrow).
Qed.

End WithCollaborators.

(** A batch of five over the two rows of the healthy line: both rows are
    processed, and the position is 2. *)
Example batch_reaches_end :
  exists s',
    SampleSession.run_batch 5 (SampleSession.session_of Sample.healthy_line)
    = (inr 2%Z, s')
    /\ stream_pos s' = Some 2%Z
    /\ last_processed s' = Some (Some 99).
Proof. eexists. vm_compute. repeat split. Qed.

Lemma process_batch_advances_witness :
  exists k s',
    SampleSession.run_batch 5 (SampleSession.session_of Sample.healthy_line)
    = (inr k, s')
    /\ stream_pos s' = Some (0 + k)%Z.
Proof.
  destruct (SampleSession.run_batch 5
              (SampleSession.session_of Sample.healthy_line))
    as [[e | k] s'] eqn:Erun; [vm_compute in Erun; discriminate Erun |].
  exists k, s'. split; [reflexivity |].
  apply (process_batch_advances (RT := Sample.minutes_runtime)
           (AD := Sample.canned_adapters) (fun idx => inject_Z idx) 99 5
           (SampleSession.session_of Sample.healthy_line) s' k
           SampleStream.two_rows 0%Z Sample.healthy_line).
  - reflexivity.
  - reflexivity.
  - reflexivity.
  - lia.
  - lia.
  - exact Erun.
Defined.

Lemma process_batch_failure_keeps_position_witness :
  exists e s',
    SampleSession.run_batch 5 (SampleSession.session_of Sample.broken_line)
    = (inl e, s')
    /\ stream_pos s' = Some 0%Z.
Proof.
  destruct (SampleSession.run_batch 5
              (SampleSession.session_of Sample.broken_line))
    as [[e | k] s'] eqn:Erun; [| vm_compute in Erun; discriminate Erun].
  exists e, s'. split; [reflexivity |].
  apply (process_batch_failure_keeps_position (RT := Sample.minutes_runtime)
           (AD := Sample.canned_adapters) (fun idx => inject_Z idx) 99 5
           (SampleSession.session_of Sample.broken_line) s' e
           SampleStream.two_rows 0%Z Sample.broken_line).
  - reflexivity.
  - reflexivity.
  - reflexivity.
  - lia.
  - lia.
  - exact Erun.
Defined.

Lemma init_state_keeps_session_witness :
  exists r s',
    init_state (FS := SampleStream.files) (inr Sample.broken_line)
      (SampleSession.session_of Sample.healthy_line) = (r, s')
    /\ pipeline s' = Some Sample.healthy_line
    /\ stream_pos s' = Some 0%Z.
Proof.
  destruct (init_state (FS := SampleStream.files) (inr Sample.broken_line)
              (SampleSession.session_of Sample.healthy_line))
    as [r s'] eqn:Erun.
  exists r, s'. split; [reflexivity |].
  destruct (init_state_keeps_session (FS := SampleStream.files)
              _ _ _ _ Erun) as (Hp & _ & Hpos & _).
  split; [apply Hp | apply Hpos]; reflexivity.
Defined.

End SessionFacts.

(** ** Alerts and costs on the dashboard *)

Module AlertFacts.

Import config features realtime_loop dashboard.
Local Open Scope string_scope.

Section WithCollaborators.

Context `{RT : Runtime} `{AD : Adapters} `{FS : Files}.

Lemma isin_In (rows : list Z) (i : Z) :
  existsb (Z.eqb i) rows = true <-> In i rows.
Proof.
  rewrite existsb_exists. split.
  - intros (x & Hx & E). apply Z.eqb_eq in E. now subst.
  - intros H. exists i. split; [exact H | apply Z.eqb_refl].
Qed.




(** X26. For a record the orchestrator returned on a failure
    probability that is not negative, the cost the dashboard counts lies
    between 0 and the expected cost of the record, and it is 0 exactly
    when the action is normal or monitor or the row is marked as
    fixed. *)
Theorem effective_cost_of_record now row idx self out self'
    (resolved_rows : list Z) :
  process_row now row idx self = (inr out, self') ->
  0 <= failure_proba out ->
  0 <= compute_effective_cost resolved_rows out <= expected_cost out
  /\ (compute_effective_cost resolved_rows out == 0
      <-> maintenance_action out = "normal"
          \/ maintenance_action out = "monitor"
          \/ In (row_index out) resolved_rows).
Proof.
  intros Hrun Hp.
  destruct (OrchestratorRecords.process_row_returns _ _ _ _ _ _ Hrun)
    as (_ & _ & _ & _ & Hact & _ & _ & Hcost & _).
  rewrite PolicyFacts.expected_cost_eq in Hcost.
  unfold compute_effective_cost.
  rewrite <- isin_In.
  rewrite Hact, Hcost.
  destruct (optimization_model.action _);
    destruct (existsb (Z.eqb (row_index out)) resolved_rows);
    cbn; unfold MAINTENANCE_COST, DOWNTIME_COST_PER_HOUR, FAILURE_COST;
    (split; [lra |]);
    apply conj; intros Hx;
    try lra; try tauto; try (right; right; reflexivity);
    try (left; reflexivity); try (right; left; reflexivity);
    exfalso;
    repeat (destruct Hx as [Hx | Hx]); discriminate Hx.
Qed.

End WithCollaborators.


Lemma effective_cost_of_record_witness :
  exists out self',
    Sample.run_row 7 Sample.observation 3 Sample.healthy_line
    = (inr out, self')
    /\ 0 <= compute_effective_cost [3%Z] out <= expected_cost out.
Proof.
  destruct (Sample.run_row 7 Sample.observation 3 Sample.healthy_line)
    as [[e | out] self'] eqn:Erun; [vm_compute in Erun; discriminate Erun |].
  exists out, self'. split; [reflexivity |].
  apply (effective_cost_of_record (RT := Sample.minutes_runtime)
           (AD := Sample.canned_adapters) 7 Sample.observation 3
           Sample.healthy_line out self' [3%Z] Erun).
  vm_compute in Erun. injection Erun as <- _. vm_compute. discriminate.
Defined.

End AlertFacts.
